(** * GOES-16 contrail notebooks: range normalization, ash false-color
      compositing, record parsing and the visualization loop

    The development embeds the code cells of the two notebooks:
    [load_tfrecords.ipynb] (module [Tfrecords]: [parse_example], the ash
    color scheme, the dataset and the visualization loop) and the NetCDF
    notebook (module [Netcdf]: the loading of three bands with the
    conversion of radiances to brightness temperatures, and the ash color
    scheme), together with the part of numpy they call (module [Np]).

    Numbers.  The notebooks compute on float64 arrays.  In the modules
    [Tfrecords], [Netcdf] and [Np] array elements are modelled as real
    numbers: there, rounding, overflow and NaN are not modelled, and real
    division and logarithm are only meaningful away from a zero divisor and
    on positive arguments (the statements that need it say so).  The module
    [Float64] gives the normalization line on binary64 numbers themselves
    (IEEE 754, round to nearest even), for the statements in which
    overflow or rounding decides.  Integer tensors keep integer elements.

    Data.  A Python dict is a finite map ([gmap]), an array is its shape
    with its elements in row-major order, a byte string is a [string].

    Errors.  A Python exception is a value [Raise e] of the type [result];
    sequencing is the bind of that monad, so that an exception leaves every
    enclosing computation at once.  Neither notebook contains a handler.
    A loop over mutable state returns the state it leaves together with its
    outcome.

    Libraries.  The byte-level decoders of TensorFlow and the reads of the
    file system are parameters (classes [TensorFlow] and [FileSystem]);
    what [tf.io.parse_single_example], [tf.io.parse_tensor], numpy and
    [plt.imshow] do with decoded data is modelled from their
    documentation.  A figure counts as displayed when [plt.show()] is
    reached. *)

From Stdlib Require Import Reals Lra Floats.
From stdpp Require Import gmap strings list fin_maps pretty.

(** ** Exceptions and results *)

Inductive exn :=
| KeyError (key : string)        (* subscript of a dict on a missing key *)
| AttributeError (name : string) (* missing variable of a dataset         *)
| TypeError                      (* operand that is not numeric           *)
| ValueError                     (* shapes that do not fit together       *)
| IndexError                     (* index outside an axis                 *)
| InvalidArgumentError (msg : string) (* raised by the TensorFlow parsers *)
| OSError (msg : string).        (* raised by a file or network read      *)

Inductive result (A : Type) :=
| Ok (a : A)
| Raise (e : exn).
Arguments Ok {A} a.
Arguments Raise {A} e.

Global Instance result_ret : MRet result := λ A, Ok.
Global Instance result_bind : MBind result := λ A B f r,
  match r with Ok a => f a | Raise e => Raise e end.
Global Instance result_fmap : FMap result := λ A B f r,
  match r with Ok a => Ok (f a) | Raise e => Raise e end.

(** ** n-dimensional arrays

    An array is its shape and its elements in row-major order, as numpy
    stores a C-contiguous array.  A Python or numpy scalar is the array of
    shape [[]]. *)

Record ndarray (A : Type) := mk_ndarray { shape : list nat; data : list A }.
Arguments mk_ndarray {A} shape data.
Arguments shape {A} _.
Arguments data {A} _.

Definition numel (s : list nat) : nat := foldr Nat.mul 1%nat s.

Definition scalar {A} (x : A) : ndarray A := mk_ndarray [] [x].

(** [wf_array a]: the number of elements is the product of the shape. *)
Definition wf_array {A} (a : ndarray A) : Prop := length (data a) = numel (shape a).

Module Np.

(** [chunks k n l]: the first [k] consecutive blocks of [n] elements. *)
Fixpoint chunks {A} (k n : nat) (l : list A) : list (list A) :=
  match k with
  | O => []
  | S k' => take n l :: chunks k' n (drop n l)
  end.

(** Broadcasting of two shapes, aligned on the last axis: two extents
    fit when they are equal or one of them is 1. *)
Definition broadcast_dim (d1 d2 : nat) : option nat :=
  if decide (d1 = d2) then Some d1
  else if decide (d1 = 1%nat) then Some d2
  else if decide (d2 = 1%nat) then Some d1
  else None.

Fixpoint broadcast_rev (r1 r2 : list nat) : option (list nat) :=
  match r1, r2 with
  | [], r | r, [] => Some r
  | d1 :: r1', d2 :: r2' =>
      d ← broadcast_dim d1 d2; r ← broadcast_rev r1' r2'; Some (d :: r)
  end.

Definition broadcast_shapes (s1 s2 : list nat) : option (list nat) :=
  reverse <$> broadcast_rev (reverse s1) (reverse s2).

(** The elements of an array of shape [from] seen at shape [to], both of
    the same rank: an axis of extent 1 is repeated. *)
Fixpoint broadcast_data {A} (from to : list nat) (d : list A) : list A :=
  match from, to with
  | f :: from', t :: to' =>
      if decide (f = t)
      then concat (map (broadcast_data from' to') (chunks f (numel from') d))
      else concat (replicate t (broadcast_data from' to' d))
  | _, _ => d
  end.

Definition broadcast_to {A} (a : ndarray A) (to : list nat) : list A :=
  broadcast_data (replicate (length to - length (shape a)) 1%nat ++ shape a) to (data a).

(** An elementwise binary operation on two arrays, [a op b]. *)
Definition binary (op : R → R → R) (a b : ndarray R) : result (ndarray R) :=
  match broadcast_shapes (shape a) (shape b) with
  | None => Raise ValueError
  | Some s => Ok (mk_ndarray s (zip_with op (broadcast_to a s) (broadcast_to b s)))
  end.

Definition subtract := binary Rminus.
Definition divide := binary Rdiv.

(** An elementwise operation with a Python number, [a op x]. *)
Definition elementwise (f : R → R) (a : ndarray R) : ndarray R :=
  mk_ndarray (shape a) (map f (data a)).

Definition log : ndarray R → ndarray R := elementwise ln.

(** [np.clip(a, lo, hi)] is [minimum(maximum(a, lo), hi)]. *)
Definition clip (a : ndarray R) (lo hi : R) : ndarray R :=
  elementwise (λ x, Rmin (Rmax x lo) hi) a.

(** [interleave n cols]: for each of [n] positions, the elements of all
    columns at that position. *)
Fixpoint interleave {A} (n : nat) (cols : list (list A)) : list A :=
  match n with
  | O => []
  | S n' => (cols ≫= take 1) ++ interleave n' (drop 1 <$> cols)
  end.

(** [np.stack(arrays, axis=-1)]: the arrays must have one shape; the new
    axis is the last one. *)
Definition stack_last {A} (arrays : list (ndarray A)) : result (ndarray A) :=
  match arrays with
  | [] => Raise ValueError
  | a :: rest =>
      if decide (Forall (λ b, shape b = shape a) rest)
      then Ok (mk_ndarray (shape a ++ [length arrays])
                          (interleave (numel (shape a)) (data <$> arrays)))
      else Raise ValueError
  end.

(** [a[..., c]] for a natural number [c]: one index on the last axis. *)
Definition last_axis {A} (c : nat) (a : ndarray A) : result (ndarray A) :=
  match reverse (shape a) with
  | [] => Raise IndexError
  | k :: outer =>
      if decide (c < k)%nat
      then Ok (mk_ndarray (reverse outer)
                          (omap (λ px, px !! c) (chunks (numel outer) k (data a))))
      else Raise IndexError
  end.

End Np.

(** ** Tensors, as [as_numpy_iterator] hands them to Python *)

Inductive dtype := DT_DOUBLE | DT_FLOAT | DT_INT32 | DT_INT64 | DT_STRING.

Global Instance dtype_eq_dec : EqDecision dtype.
Proof. solve_decision. Defined.

Definition carrier (dt : dtype) : Type :=
  match dt with
  | DT_DOUBLE | DT_FLOAT => R
  | DT_INT32 | DT_INT64 => Z
  | DT_STRING => string
  end.

(** A dense tensor arrives as a numpy array (a scalar string as a Python
    [bytes] object), a sparse tensor as a [SparseTensorValue], of which the
    values are kept. *)
Inductive tensor :=
| Dense (dt : dtype) (a : ndarray (carrier dt))
| Sparse (dt : dtype) (values : list (carrier dt)).

(** The key of a subscript, carried by [KeyError key]. *)
Definition int_key (band_id : Z) : string := pretty.pretty band_id.

(** [d[k]] *)
Definition getitem `{Countable K} {V} (repr : K → string) (d : gmap K V) (k : K) : result V :=
  match d !! k with
  | Some v => Ok v
  | None => Raise (KeyError (repr k))
  end.

(** A dict display or comprehension: later items win. *)
Definition dict_of `{Countable K} {V} (items : list (K * V)) : gmap K V :=
  foldl (λ d kv, <[kv.1 := kv.2]> d) ∅ items.

Global Instance R_eq_dec : EqDecision R := Req_dec_T.

(** Signed 64-bit wrap-around, the accumulator of [ndarray.sum] on an
    integer array (the platform integer of a 64-bit Linux). *)
Definition wrap64 (z : Z) : Z := ((z + 2 ^ 63) mod 2 ^ 64 - 2 ^ 63)%Z.

Definition Zsum (l : list Z) : Z := foldr Z.add 0%Z l.
Definition Rsum (l : list R) : R := foldr Rplus 0%R l.

Open Scope R_scope.

Module Tfrecords.

(** *** Cell 2: [parse_example] *)

(** The content of a [tf.train.Example]: a map from feature names to
    value lists of one of three kinds. *)
Inductive feature :=
| BytesList (value : list string)
| FloatList (value : list R)
| Int64List (value : list Z).

Inductive feature_config :=
| FixedLenFeature (shp : list nat) (dt : dtype)
| VarLenFeature (dt : dtype).

(** The two TensorFlow decoders of byte strings that the notebook relies
    on: the protocol-buffer decoder of a serialized [Example] inside
    [tf.io.parse_single_example], and the decoder of a serialized
    [TensorProto] inside [tf.io.parse_tensor], which yields elements of the
    requested type or raises. *)
Class TensorFlow := {
  decode_example : string → result (gmap string feature);
  decode_tensor_proto : string → ∀ out_type : dtype, result (ndarray (carrier out_type))
}.

Definition goes_bands : list string :=
  ["upper_vapor"; "mid_vapor"; "low_vapor"; "cloud_top"; "ozone";
   "data_10um"; "data_11um"; "data_12um"; "co2"]%string.

(** [d.update(other)] *)
Definition dict_update {V} (other d : gmap string V) : gmap string V := other ∪ d.

Definition feature_spec : gmap string feature_config :=
  dict_update
    (dict_of [
      ("brightness_temperature_difference", FixedLenFeature [] DT_STRING);
      ("human_individual_masks", FixedLenFeature [] DT_STRING);
      ("human_pixel_masks", FixedLenFeature [] DT_STRING);
      ("n_times_before", FixedLenFeature [] DT_INT64);
      ("n_times_after", FixedLenFeature [] DT_INT64);
      ("projection_wkt", FixedLenFeature [] DT_STRING);
      ("col_min", FixedLenFeature [] DT_FLOAT);
      ("row_min", FixedLenFeature [] DT_FLOAT);
      ("col_size", FixedLenFeature [] DT_FLOAT);
      ("row_size", FixedLenFeature [] DT_FLOAT);
      ("timestamp", FixedLenFeature [] DT_INT64);
      ("satellite_scan_starts", VarLenFeature DT_INT64)
    ]%string)
    (dict_of ((λ band, (band, FixedLenFeature [] DT_STRING)) <$> goes_bands)).

(** The values of a feature at the type a configuration asks for:
    [tf.string] reads a bytes list, [tf.float32] a float list, [tf.int64]
    an int64 list; no other type is legal in a configuration. *)
Definition feature_values (dt : dtype) (f : feature) : option (list (carrier dt)) :=
  match dt return option (list (carrier dt)) with
  | DT_STRING => match f with BytesList v => Some v | _ => None end
  | DT_FLOAT => match f with FloatList v => Some v | _ => None end
  | DT_INT64 => match f with Int64List v => Some v | _ => None end
  | DT_DOUBLE | DT_INT32 => None
  end.

(** One entry of [tf.io.parse_single_example]: a fixed-length feature
    without default is required and must hold as many values as its shape;
    a variable-length feature may be absent and becomes a sparse tensor. *)
Definition parse_feature (ex : gmap string feature) (key : string)
    (cfg : feature_config) : result tensor :=
  match cfg with
  | FixedLenFeature shp dt =>
      match ex !! key with
      | None => Raise (InvalidArgumentError ("feature is required but could not be found: " +:+ key))
      | Some f =>
          match feature_values dt f with
          | None => Raise (InvalidArgumentError ("data types do not match: " +:+ key))
          | Some v =>
              if decide (length v = numel shp)
              then Ok (Dense dt (mk_ndarray shp v))
              else Raise (InvalidArgumentError ("number of values does not match the shape: " +:+ key))
          end
      end
  | VarLenFeature dt =>
      match ex !! key with
      | None => Ok (Sparse dt [])
      | Some f =>
          match feature_values dt f with
          | None => Raise (InvalidArgumentError ("data types do not match: " +:+ key))
          | Some v => Ok (Sparse dt v)
          end
      end
  end.

Definition error_of {V} (r : result V) : option exn :=
  match r with Ok _ => None | Raise e => Some e end.

Definition value_of {V} (r : result V) : option V :=
  match r with Ok v => Some v | Raise _ => None end.

(** All entries, or the error of one of them. *)
Definition collect {V} (m : gmap string (result V)) : result (gmap string V) :=
  match head (omap (λ kv, error_of kv.2) (map_to_list m)) with
  | Some e => Raise e
  | None => Ok (omap value_of m)
  end.

(** [tf.io.parse_single_example(serialized, features)]: the result has the
    keys of [features]; names of the example outside it are ignored. *)
Definition parse_single_example `{TF : TensorFlow} (serialized : string)
    (features : gmap string feature_config) : result (gmap string tensor) :=
  ex ← decode_example serialized;
  collect (map_imap (λ key cfg, Some (parse_feature ex key cfg)) features).

(** [tf.io.parse_tensor(serialized, out_type)] on a scalar string tensor. *)
Definition parse_tensor `{TF : TensorFlow} (serialized : tensor) (out_type : dtype) : result tensor :=
  match serialized with
  | Dense DT_STRING (mk_ndarray [] [bytes]) =>
      Dense out_type <$> decode_tensor_proto bytes out_type
  | _ => Raise (InvalidArgumentError "parse_tensor expects a scalar string")
  end.

Definition str_key (k : string) : string := k.

(** [features[key] = tf.io.parse_tensor(features[key], out_type)] *)
Definition reparse `{TF : TensorFlow} (key : string) (out_type : dtype)
    (features : gmap string tensor) : result (gmap string tensor) :=
  v ← getitem str_key features key;
  t ← parse_tensor v out_type;
  Ok (<[key := t]> features).

(** [for key in keys: features[key] = tf.io.parse_tensor(features[key], out_type)] *)
Fixpoint reparse_each `{TF : TensorFlow} (keys : list string) (out_type : dtype)
    (features : gmap string tensor) : result (gmap string tensor) :=
  match keys with
  | [] => Ok features
  | key :: keys' =>
      features' ← reparse key out_type features;
      reparse_each keys' out_type features'
  end.

Definition parse_example `{TF : TensorFlow} (serialized_example : string) : result (gmap string tensor) :=
  features ← parse_single_example serialized_example feature_spec;
  features ← reparse_each (goes_bands ++ ["brightness_temperature_difference"%string]) DT_DOUBLE features;
  features ← reparse "human_pixel_masks" DT_INT32 features;
  features ← reparse "human_individual_masks" DT_INT32 features;
  Ok features.

(** *** Cell 3: the ash color scheme *)

Definition _T11_BOUNDS : R * R := (243, 303).
Definition _CLOUD_TOP_TDIFF_BOUNDS : R * R := (-4, 5).
Definition _TDIFF_BOUNDS : R * R := (-4, 2).

(** [(data - bounds[0]) / (bounds[1] - bounds[0])]: an array minus a
    number, divided by a number. *)
Definition normalize_range (data : ndarray R) (bounds : R * R) : ndarray R :=
  Np.elementwise (λ x, x / (bounds.2 - bounds.1))
    (Np.elementwise (λ x, x - bounds.1) data).

(** The numeric array of a tensor in arithmetic.  The notebook passes
    float64 arrays; integer elements are read as the numbers they denote
    (their wrap-around is not modelled), and a byte string or a sparse
    tensor is no operand. *)
Definition as_real (t : tensor) : result (ndarray R) :=
  match t with
  | Dense dt a =>
      match dt return ndarray (carrier dt) → result (ndarray R) with
      | DT_DOUBLE | DT_FLOAT => λ a, Ok a
      | DT_INT32 | DT_INT64 => λ a, Ok (mk_ndarray (shape a) (IZR <$> data a))
      | DT_STRING => λ _, Raise TypeError
      end a
  | Sparse _ _ => Raise TypeError
  end.

(** [x - y] on two values of the dictionary *)
Definition tensor_subtract (x y : tensor) : result (ndarray R) :=
  a ← as_real x; b ← as_real y; Np.subtract a b.

Definition false_color_image (brightness_temperatures : gmap string tensor) : result (ndarray R) :=
  r ← (x ← getitem str_key brightness_temperatures "data_12um";
       y ← getitem str_key brightness_temperatures "data_11um";
       d ← tensor_subtract x y;
       Ok (normalize_range d _TDIFF_BOUNDS));
  g ← (x ← getitem str_key brightness_temperatures "data_11um";
       y ← getitem str_key brightness_temperatures "cloud_top";
       d ← tensor_subtract x y;
       Ok (normalize_range d _CLOUD_TOP_TDIFF_BOUNDS));
  b ← (x ← getitem str_key brightness_temperatures "data_11um";
       a ← as_real x;
       Ok (normalize_range a _T11_BOUNDS));
  stacked ← Np.stack_last [r; g; b];
  Ok (Np.clip stacked 0 1).

(** The values of the locals [r], [g] and [b] when line 105 is reached. *)
Definition ash_channels (brightness_temperatures : gmap string tensor)
    : result (ndarray R * ndarray R * ndarray R) :=
  r ← (x ← getitem str_key brightness_temperatures "data_12um";
       y ← getitem str_key brightness_temperatures "data_11um";
       d ← tensor_subtract x y;
       Ok (normalize_range d _TDIFF_BOUNDS));
  g ← (x ← getitem str_key brightness_temperatures "data_11um";
       y ← getitem str_key brightness_temperatures "cloud_top";
       d ← tensor_subtract x y;
       Ok (normalize_range d _CLOUD_TOP_TDIFF_BOUNDS));
  b ← (x ← getitem str_key brightness_temperatures "data_11um";
       a ← as_real x;
       Ok (normalize_range a _T11_BOUNDS));
  Ok (r, g, b).

(** *** Cell 4: the dataset

    [TFRecordDataset(...).map(parse_example)], iterated lazily: reading
    the next record may fail, and a record is parsed when it is reached. *)
Definition dataset `{TF : TensorFlow} (records : list (result string))
    : list (result (gmap string tensor)) :=
  (λ record, record ≫= parse_example) <$> records.

(** *** Cell 5: the visualization loop *)

(** [t.sum() == 0] *)
Definition sum_is_zero (t : tensor) : result bool :=
  match t with
  | Dense dt a =>
      match dt return ndarray (carrier dt) → result bool with
      | DT_DOUBLE | DT_FLOAT => λ a, Ok (bool_decide (Rsum (data a) = 0))
      | DT_INT32 | DT_INT64 => λ a, Ok (bool_decide (wrap64 (Zsum (data a)) = 0%Z))
      | DT_STRING => λ _, Raise (AttributeError "sum")
      end a
  | Sparse _ _ => Raise (AttributeError "sum")
  end.

(** The integer of a tensor used as an index: an integer scalar. *)
Definition as_index (t : tensor) : result Z :=
  match t with
  | Dense dt a =>
      match dt return ndarray (carrier dt) → result Z with
      | DT_INT32 | DT_INT64 => λ a,
          match shape a, data a with
          | [], [n] => Ok n
          | _, _ => Raise IndexError
          end
      | _ => λ _, Raise IndexError
      end a
  | Sparse _ _ => Raise IndexError
  end.

(** [a[..., n, :]]: index [n] on the last axis but one; a negative index
    counts from the end. *)
Definition index_penultimate {A} (n : Z) (a : ndarray A) : result (ndarray A) :=
  match reverse (shape a) with
  | c :: t :: outer =>
      if decide (- Z.of_nat t ≤ n < Z.of_nat t)%Z
      then
        let i := Z.to_nat (n mod Z.of_nat t) in
        Ok (mk_ndarray (reverse outer ++ [c])
              (Np.chunks (numel outer) (t * c) (data a) ≫= λ block, take c (drop (i * c) block)))
      else Raise IndexError
  | _ => Raise IndexError
  end.

(** [t.squeeze(-1)]: the last axis must have extent 1. *)
Definition squeeze_last (t : tensor) : result tensor :=
  match t with
  | Dense DT_STRING _ | Sparse _ _ => Raise (AttributeError "squeeze")
  | Dense dt a =>
      match reverse (shape a) with
      | 1%nat :: outer => Ok (Dense dt (mk_ndarray (reverse outer) (data a)))
      | _ => Raise ValueError
      end
  end.

(** [plt.imshow(X)] accepts a numeric array of shape (M, N), (M, N, 1)
    (which it draws as (M, N)), (M, N, 3) or (M, N, 4); the panel keeps the
    array it was given. *)
Definition imshow (X : tensor) : result tensor :=
  match X with
  | Dense DT_STRING _ | Sparse _ _ => Raise TypeError
  | Dense _ a =>
      match shape a with
      | [_; _] | [_; _; 1%nat] | [_; _; 3%nat] | [_; _; 4%nat] => Ok X
      | _ => Raise TypeError
      end
  end.

(** A figure shown by [plt.show()]: its two panels. *)
Record figure := mk_figure { left_panel : tensor; right_panel : tensor }.

Record loop_state := mk_loop_state { count : nat; shown : list figure }.

Inductive signal := Continue | Break.

(** One pass through the body of the [for] statement: everything up to
    [plt.show()] either raises or yields the two panels of the figure; the
    figure is then shown and counted. *)
Definition loop_body (features : gmap string tensor) (st : loop_state)
    : loop_state * result signal :=
  let before_show : result (option figure) :=
    mask ← getitem str_key features "human_pixel_masks";
    skip ← sum_is_zero mask;
    if (skip : bool) then Ok None
    else
      n_times_before ← getitem str_key features "n_times_before";
      false_color_images ← false_color_image features;
      n ← as_index n_times_before;
      frame ← index_penultimate n false_color_images;
      left ← imshow (Dense DT_DOUBLE frame);
      mask ← getitem str_key features "human_pixel_masks";
      flat ← squeeze_last mask;
      right ← imshow flat;
      Ok (Some (mk_figure left right)) in
  match before_show with
  | Raise e => (st, Raise e)
  | Ok None => (st, Ok Continue)
  | Ok (Some fig) =>
      let count' := S (count st) in
      (mk_loop_state count' (shown st ++ [fig]),
       Ok (if decide (10 ≤ count')%nat then Break else Continue))
  end.

(** The [for] statement.  The first component lists the state at the head
    of every iteration that is entered and the state in which the
    statement is left. *)
Fixpoint visualization_loop (iterator : list (result (gmap string tensor)))
    (st : loop_state) : list loop_state * result unit :=
  match iterator with
  | [] => ([st], Ok ())
  | Raise e :: _ => ([st], Raise e)
  | Ok features :: rest =>
      match loop_body features st with
      | (st', Raise e) => ([st; st'], Raise e)
      | (st', Ok Break) => ([st; st'], Ok ())
      | (st', Ok Continue) =>
          let '(states, outcome) := visualization_loop rest st' in
          (st :: states, outcome)
      end
  end.

(** Cells 4 and 5 on the records of the file, from [count = 0]. *)
Definition run_cells `{TF : TensorFlow} (records : list (result string))
    : list loop_state * result unit :=
  visualization_loop (dataset records) (mk_loop_state 0 []).

End Tfrecords.

Module Netcdf.

(** *** Cell 3: loading three bands *)

(** [fs.open(path, 'rb')] followed by [xarray.open_dataset(f)]: the
    variables of the file by name, or the error of the read. *)
Class FileSystem := {
  open_dataset : string → result (gmap string (ndarray R))
}.

Definition paths : list (Z * string) :=
  [(11%Z, "gcp-public-data-goes-16/ABI-L1b-RadF/2023/001/00/OR_ABI-L1b-RadF-M6C11_G16_s20230010020206_e20230010029514_c20230010029565.nc"%string);
   (14%Z, "gcp-public-data-goes-16/ABI-L1b-RadF/2023/001/00/OR_ABI-L1b-RadF-M6C14_G16_s20230010020206_e20230010029514_c20230010029555.nc"%string);
   (15%Z, "gcp-public-data-goes-16/ABI-L1b-RadF/2023/001/00/OR_ABI-L1b-RadF-M6C15_G16_s20230010020206_e20230010029522_c20230010029573.nc"%string)].

(** [dataset.name.data] *)
Definition getattr (dataset : gmap string (ndarray R)) (name : string) : result (ndarray R) :=
  match dataset !! name with
  | Some v => Ok v
  | None => Raise (AttributeError name)
  end.

(** The right-hand side of line 95:
    [(planck_fk2 / np.log((planck_fk1 / Rad) + 1) - planck_bc1) / planck_bc2] *)
Definition brightness_temperature (dataset : gmap string (ndarray R)) : result (ndarray R) :=
  fk2 ← getattr dataset "planck_fk2";
  fk1 ← getattr dataset "planck_fk1";
  rad ← getattr dataset "Rad";
  ratio ← Np.divide fk1 rad;
  quotient ← Np.divide fk2 (Np.log (Np.elementwise (λ x, x + 1) ratio));
  bc1 ← getattr dataset "planck_bc1";
  difference ← Np.subtract quotient bc1;
  bc2 ← getattr dataset "planck_bc2";
  Np.divide difference bc2.

(** [for band_id, path in items: ...] on the dictionary
    [brightness_temperatures]; the dictionary is returned as the cell
    leaves it. *)
Fixpoint load_bands `{FS : FileSystem} (items : list (Z * string))
    (brightness_temperatures : gmap Z (ndarray R))
    : gmap Z (ndarray R) * result unit :=
  match items with
  | [] => (brightness_temperatures, Ok ())
  | (band_id, path) :: rest =>
      match open_dataset path ≫= brightness_temperature with
      | Raise e => (brightness_temperatures, Raise e)
      | Ok bt => load_bands rest (<[band_id := bt]> brightness_temperatures)
      end
  end.

(** *** Cell 4: the ash color scheme *)

Definition _T11_BOUNDS : R * R := (243, 303).
Definition _CLOUD_TOP_TDIFF_BOUNDS : R * R := (-4, 5).
Definition _TDIFF_BOUNDS : R * R := (-4, 2).

Definition normalize_range (data : ndarray R) (bounds : R * R) : ndarray R :=
  Np.elementwise (λ x, x / (bounds.2 - bounds.1))
    (Np.elementwise (λ x, x - bounds.1) data).

Definition false_color_image (brightness_temperatures : gmap Z (ndarray R)) : result (ndarray R) :=
  r ← (x ← getitem int_key brightness_temperatures 15%Z;
       y ← getitem int_key brightness_temperatures 14%Z;
       d ← Np.subtract x y;
       Ok (normalize_range d _TDIFF_BOUNDS));
  g ← (x ← getitem int_key brightness_temperatures 14%Z;
       y ← getitem int_key brightness_temperatures 11%Z;
       d ← Np.subtract x y;
       Ok (normalize_range d _CLOUD_TOP_TDIFF_BOUNDS));
  b ← (x ← getitem int_key brightness_temperatures 14%Z;
       Ok (normalize_range x _T11_BOUNDS));
  stacked ← Np.stack_last [r; g; b];
  Ok (Np.clip stacked 0 1).

(** Cells 3 and 5: [fci = false_color_image(brightness_temperatures)] runs
    when the loading cell has finished. *)
Definition run_cells `{FS : FileSystem} : result (ndarray R) :=
  match load_bands paths ∅ with
  | (_, Raise e) => Raise e
  | (brightness_temperatures, Ok _) => false_color_image brightness_temperatures
  end.

End Netcdf.

(** ** The normalization on binary64 numbers

    [normalize_range] (line 98 of [load_tfrecords.ipynb], line 129 of the
    NetCDF notebook, the same text) on a float64 number and a pair of
    float64 bounds: two subtractions and a division, each rounded to
    nearest.  A division by zero or an overflow raises nothing in numpy: it
    yields an infinity or NaN. *)
Module Float64.

Definition normalize_range (data : float) (bounds : float * float) : float :=
  ((data - bounds.1) / (bounds.2 - bounds.1))%float.

End Float64.

(** ** Vocabulary of the statements about records *)

Inductive layout := dense | sparse.

Global Instance layout_eq_dec : EqDecision layout.
Proof. solve_decision. Defined.

Definition tensor_kind (t : tensor) : layout * dtype :=
  match t with
  | Dense dt _ => (dense, dt)
  | Sparse dt _ => (sparse, dt)
  end.

Definition config_kind (cfg : Tfrecords.feature_config) : layout * dtype :=
  match cfg with
  | Tfrecords.FixedLenFeature _ dt => (dense, dt)
  | Tfrecords.VarLenFeature dt => (sparse, dt)
  end.

(** The record schema, as the specification lists it: the layout and the
    element type of every key of the dictionary [parse_example] returns. *)
Definition record_schema : gmap string (layout * dtype) :=
  list_to_map [
    ("upper_vapor", (dense, DT_DOUBLE)); ("mid_vapor", (dense, DT_DOUBLE));
    ("low_vapor", (dense, DT_DOUBLE)); ("cloud_top", (dense, DT_DOUBLE));
    ("ozone", (dense, DT_DOUBLE)); ("data_10um", (dense, DT_DOUBLE));
    ("data_11um", (dense, DT_DOUBLE)); ("data_12um", (dense, DT_DOUBLE));
    ("co2", (dense, DT_DOUBLE));
    ("brightness_temperature_difference", (dense, DT_DOUBLE));
    ("human_pixel_masks", (dense, DT_INT32));
    ("human_individual_masks", (dense, DT_INT32));
    ("n_times_before", (dense, DT_INT64)); ("n_times_after", (dense, DT_INT64));
    ("timestamp", (dense, DT_INT64));
    ("projection_wkt", (dense, DT_STRING));
    ("col_min", (dense, DT_FLOAT)); ("row_min", (dense, DT_FLOAT));
    ("col_size", (dense, DT_FLOAT)); ("row_size", (dense, DT_FLOAT));
    ("satellite_scan_starts", (sparse, DT_INT64))
  ]%string.

(** The fields that hold a serialized tensor, with the type it is decoded
    at. *)
Definition tensor_fields : list (string * dtype) :=
  ((λ band, (band, DT_DOUBLE)) <$> Tfrecords.goes_bands)
  ++ [("brightness_temperature_difference", DT_DOUBLE);
      ("human_pixel_masks", DT_INT32);
      ("human_individual_masks", DT_INT32)]%string.

(** A well-formed record: it decodes to an [Example] that contains all
    required fields in the form the parsers accept.  Every tensor field is
    one byte string that holds a tensor of its type, the projection text
    is one byte string, the integer and float fields hold one value each,
    and the scan starts, if present, are integers. *)
Definition well_formed_record `{TF : Tfrecords.TensorFlow} (serialized : string) : Prop :=
  ∃ ex,
    Tfrecords.decode_example serialized = Ok ex
    ∧ (∀ key out_type, (key, out_type) ∈ tensor_fields →
         ∃ bytes a, ex !! key = Some (Tfrecords.BytesList [bytes])
                    ∧ Tfrecords.decode_tensor_proto bytes out_type = Ok a)
    ∧ (∃ wkt, ex !! "projection_wkt" = Some (Tfrecords.BytesList [wkt]))
    ∧ (∀ key, key ∈ ["n_times_before"; "n_times_after"; "timestamp"]%string →
         ∃ n, ex !! key = Some (Tfrecords.Int64List [n]))
    ∧ (∀ key, key ∈ ["col_min"; "row_min"; "col_size"; "row_size"]%string →
         ∃ x, ex !! key = Some (Tfrecords.FloatList [x]))
    ∧ (ex !! "satellite_scan_starts" = None
       ∨ ∃ starts, ex !! "satellite_scan_starts" = Some (Tfrecords.Int64List starts)).

(** ** Vocabulary of the statements about the loop *)

(** A figure whose right panel, the mask, does not sum to zero. *)
Definition nonzero_mask (fig : Tfrecords.figure) : Prop :=
  Tfrecords.sum_is_zero (Tfrecords.right_panel fig) = Ok false.

(** The invariant of the loop: at most ten figures, counted by [count],
    each of an example with contrails. *)
Definition loop_invariant (st : Tfrecords.loop_state) : Prop :=
  (Tfrecords.count st ≤ 10)%nat
  ∧ Tfrecords.count st = length (Tfrecords.shown st)
  ∧ Forall nonzero_mask (Tfrecords.shown st).


(** ** Sample data for the examples below *)

Definition pixel (x : R) : ndarray R := mk_ndarray [1%nat; 1%nat] [x].

(** A dictionary with all nine bands at 273 K on one pixel. *)
Definition uniform_bands : gmap string tensor :=
  dict_of ((λ band, (band, Dense DT_DOUBLE (pixel 273))) <$> Tfrecords.goes_bands).

(** The same three bands under the keys of the NetCDF notebook. *)
Definition uniform_bands_netcdf : gmap Z (ndarray R) :=
  dict_of [(11%Z, pixel 273); (14%Z, pixel 273); (15%Z, pixel 273)].

(** The same dictionaries with other entries changed or added: another
    band, a mask, a metadata field. *)
Definition uniform_bands_other : gmap string tensor :=
  <["ozone" := Dense DT_DOUBLE (pixel 0)]>
    (<["human_pixel_masks" := Dense DT_INT32 (mk_ndarray [1; 1; 1]%nat [1%Z])]>
       (<["projection_wkt" := Dense DT_STRING (scalar "PROJCS"%string)]> uniform_bands)).

Definition uniform_bands_netcdf_other : gmap Z (ndarray R) :=
  <[13%Z := pixel 0]> uniform_bands_netcdf.

(** A dataset of one band: two pixels and the four Planck constants. *)
Definition sample_dataset : gmap string (ndarray R) :=
  dict_of [("Rad"%string, mk_ndarray [1; 2]%nat [1; 2]);
           ("planck_fk1"%string, scalar 8510);
           ("planck_fk2"%string, scalar 1286);
           ("planck_bc1"%string, scalar 0);
           ("planck_bc2"%string, scalar 1)].

(** An [Example] of one pixel and one time step whose two masks are the
    byte string [mask]. *)
Definition sample_example (mask : string) : gmap string Tfrecords.feature :=
  dict_of
    (((λ band, (band, Tfrecords.BytesList ["T273"%string])) <$> Tfrecords.goes_bands)
     ++ [("brightness_temperature_difference", Tfrecords.BytesList ["T273"]);
         ("human_pixel_masks", Tfrecords.BytesList [mask]);
         ("human_individual_masks", Tfrecords.BytesList [mask]);
         ("n_times_before", Tfrecords.Int64List [0%Z]);
         ("n_times_after", Tfrecords.Int64List [0%Z]);
         ("projection_wkt", Tfrecords.BytesList ["PROJCS"]);
         ("col_min", Tfrecords.FloatList [0]);
         ("row_min", Tfrecords.FloatList [0]);
         ("col_size", Tfrecords.FloatList [1]);
         ("row_size", Tfrecords.FloatList [1]);
         ("timestamp", Tfrecords.Int64List [1682745713%Z]);
         ("satellite_scan_starts", Tfrecords.Int64List [1682745600%Z])]%string).

(** Decoders of a toy encoding: the records ["contrail"], ["clear"] and
    ["garbled"] (whose masks are the bytes ["XX"], which hold no tensor),
    the float64 tensor ["T273"] and the int32 masks ["M1"] and ["M0"].
    Every other byte string is rejected. *)
Definition sample_decode_tensor (bytes : string) (out_type : dtype)
    : result (ndarray (carrier out_type)) :=
  match out_type return result (ndarray (carrier out_type)) with
  | DT_DOUBLE =>
      if decide (bytes = "T273"%string) then Ok (mk_ndarray [1; 1; 1]%nat [273])
      else Raise (InvalidArgumentError "Could not parse tensor proto")
  | DT_INT32 =>
      if decide (bytes = "M1"%string) then Ok (mk_ndarray [1; 1; 1]%nat [1%Z])
      else if decide (bytes = "M0"%string) then Ok (mk_ndarray [1; 1; 1]%nat [0%Z])
      else Raise (InvalidArgumentError "Could not parse tensor proto")
  | _ => Raise (InvalidArgumentError "Type mismatch between parsed tensor and out_type")
  end.

Definition sample_tensorflow : Tfrecords.TensorFlow := {|
  Tfrecords.decode_example serialized :=
    if decide (serialized = "contrail"%string) then Ok (sample_example "M1")
    else if decide (serialized = "clear"%string) then Ok (sample_example "M0")
    else if decide (serialized = "garbled"%string) then Ok (sample_example "XX")
    else Raise (InvalidArgumentError "Could not parse example input");
  Tfrecords.decode_tensor_proto := sample_decode_tensor
|}.

(** A file system on which the file of band 15 cannot be read. *)
Definition sample_filesystem : Netcdf.FileSystem := {|
  Netcdf.open_dataset path :=
    if decide (path = "gcp-public-data-goes-16/ABI-L1b-RadF/2023/001/00/OR_ABI-L1b-RadF-M6C15_G16_s20230010020206_e20230010029522_c20230010029573.nc"%string)
    then Raise (OSError "Connection reset by peer")
    else Ok sample_dataset
|}.

(** A file system on which every file holds [sample_dataset]. *)
Definition sample_filesystem_complete : Netcdf.FileSystem := {|
  Netcdf.open_dataset path := Ok sample_dataset
|}.

(** The decoders of [sample_tensorflow], with one more record: ["annotated"]
    is the record ["contrail"] with two fields outside the schema. *)
Definition sample_tensorflow_annotated : Tfrecords.TensorFlow := {|
  Tfrecords.decode_example serialized :=
    if decide (serialized = "annotated"%string)
    then Ok (<["labeler_id" := Tfrecords.Int64List [7%Z]]>
               (<["comment" := Tfrecords.BytesList ["thin cirrus"%string]]>
                  (sample_example "M1")))
    else Tfrecords.decode_example (TensorFlow:=sample_tensorflow) serialized;
  Tfrecords.decode_tensor_proto := sample_decode_tensor
|}.

(** * Properties *)

(** ** The result monad *)

(** Case analysis on the first computation of a sequence that is not
    itself a sequence. *)
Ltac case_result :=
  match goal with
  | |- context [@mbind result _ _ _ _ ?c] =>
      lazymatch c with
      | context [@mbind result _ _ _ _ _] => fail
      | _ => destruct c eqn:?; cbn [mbind result_bind]
      end
  end.

(** ** The model on small inputs *)

Example broadcast_shapes_column_row :
  Np.broadcast_shapes [2; 1]%nat [3]%nat = Some [2; 3]%nat
  ∧ Np.broadcast_shapes [2; 3]%nat [2]%nat = None
  ∧ Np.broadcast_shapes [] [4; 5]%nat = Some [4; 5]%nat.
Proof. repeat split. Qed.

Example broadcast_to_column_row :
  Np.broadcast_to (mk_ndarray [2; 1]%nat [1; 2]%Z) [2; 3]%nat = [1; 1; 1; 2; 2; 2]%Z
  ∧ Np.broadcast_to (mk_ndarray [3]%nat [7; 8; 9]%Z) [2; 3]%nat = [7; 8; 9; 7; 8; 9]%Z
  ∧ Np.broadcast_to (scalar 5%Z) [2; 2]%nat = [5; 5; 5; 5]%Z.
Proof. repeat split. Qed.

Example subtract_column_row :
  Np.subtract (mk_ndarray [2; 1]%nat [10; 20]) (mk_ndarray [3]%nat [1; 2; 3])
  = Ok (mk_ndarray [2; 3]%nat [10 - 1; 10 - 2; 10 - 3; 20 - 1; 20 - 2; 20 - 3])
  ∧ Np.subtract (mk_ndarray [2]%nat [10; 20]) (mk_ndarray [3]%nat [1; 2; 3])
    = Raise ValueError.
Proof. repeat split. Qed.

Example stack_last_two_pixels :
  Np.stack_last [mk_ndarray [2]%nat [1; 2]%Z; mk_ndarray [2]%nat [3; 4]%Z;
                 mk_ndarray [2]%nat [5; 6]%Z]
  = Ok (mk_ndarray [2; 3]%nat [1; 3; 5; 2; 4; 6]%Z)
  ∧ Np.stack_last [mk_ndarray [2]%nat [1; 2]%Z; mk_ndarray [1]%nat [3]%Z]
    = Raise ValueError.
Proof. repeat split. Qed.

Example last_axis_two_pixels :
  Np.last_axis 1 (mk_ndarray [2; 3]%nat [1; 3; 5; 2; 4; 6]%Z)
  = Ok (mk_ndarray [2]%nat [3; 4]%Z)
  ∧ Np.last_axis 3 (mk_ndarray [2; 3]%nat [1; 3; 5; 2; 4; 6]%Z) = Raise IndexError.
Proof. repeat split. Qed.

(** Two pixels, two time steps, three channels: the frame of the second
    time step, by its index and from the end. *)
Example index_penultimate_frame :
  Tfrecords.index_penultimate 1
    (mk_ndarray [2; 2; 3]%nat [1; 2; 3; 4; 5; 6; 7; 8; 9; 10; 11; 12]%Z)
  = Ok (mk_ndarray [2; 3]%nat [4; 5; 6; 10; 11; 12]%Z)
  ∧ Tfrecords.index_penultimate (-1)
      (mk_ndarray [2; 2; 3]%nat [1; 2; 3; 4; 5; 6; 7; 8; 9; 10; 11; 12]%Z)
    = Ok (mk_ndarray [2; 3]%nat [4; 5; 6; 10; 11; 12]%Z)
  ∧ Tfrecords.index_penultimate 2
      (mk_ndarray [2; 2; 3]%nat [1; 2; 3; 4; 5; 6; 7; 8; 9; 10; 11; 12]%Z)
    = Raise IndexError.
Proof. repeat split. Qed.

Example sum_is_zero_masks :
  Tfrecords.sum_is_zero (Dense DT_INT32 (mk_ndarray [2; 2; 1]%nat [0; 0; 0; 0]%Z)) = Ok true
  ∧ Tfrecords.sum_is_zero (Dense DT_INT32 (mk_ndarray [2; 2; 1]%nat [0; 1; 1; 0]%Z)) = Ok false
  ∧ Tfrecords.sum_is_zero (Dense DT_STRING (scalar "PROJCS"%string))
    = Raise (AttributeError "sum").
Proof. repeat split. Qed.

Example false_color_image_missing_band :
  Tfrecords.false_color_image (delete "cloud_top"%string uniform_bands)
  = Raise (KeyError "cloud_top")
  ∧ Netcdf.false_color_image (delete 11%Z uniform_bands_netcdf)
    = Raise (KeyError "11").
Proof. split; reflexivity. Qed.

(** Twelve records with contrails: ten figures, then the loop is left.  A
    record without contrails shows nothing; a record that does not decode
    ends the run. *)
Example run_cells_counts :
  Tfrecords.count <$> (Tfrecords.run_cells (TF:=sample_tensorflow)
                         (replicate 12 (Ok "contrail"%string))).1
  = [0; 1; 2; 3; 4; 5; 6; 7; 8; 9; 10]%nat
  ∧ Tfrecords.count <$> (Tfrecords.run_cells (TF:=sample_tensorflow)
                           [Ok "contrail"; Ok "clear"; Ok "contrail"]%string).1
    = [0; 1; 1; 2]%nat
  ∧ (Tfrecords.run_cells (TF:=sample_tensorflow)
       [Ok "clear"; Ok "corrupt"; Ok "contrail"]%string).2
    = Raise (InvalidArgumentError "Could not parse example input").
Proof. split_and!; by vm_compute. Qed.

(** ** Arithmetic of the normalization and of the clip *)

Lemma clip_unit_interval (x : R) : 0 <= Rmin (Rmax x 0) 1 <= 1.
Proof.
  unfold Rmin, Rmax.
  destruct (Rle_dec x 0), (Rle_dec _ 1); lra.
Qed.

Lemma normalize_range_data (a : ndarray R) (bounds : R * R) :
  Tfrecords.normalize_range a bounds
  = mk_ndarray (shape a) ((λ x, (x - bounds.1) / (bounds.2 - bounds.1)) <$> data a).
Proof.
  unfold Tfrecords.normalize_range, Np.elementwise. simpl.
  f_equal. rewrite <- list_fmap_compose. reflexivity.
Qed.

Lemma normalize_range_scalar (x : R) (bounds : R * R) :
  Tfrecords.normalize_range (scalar x) bounds
  = scalar ((x - bounds.1) / (bounds.2 - bounds.1)).
Proof. reflexivity. Qed.

Lemma normalize_range_same :
  Tfrecords.normalize_range = Netcdf.normalize_range
  ∧ Tfrecords._T11_BOUNDS = Netcdf._T11_BOUNDS
  ∧ Tfrecords._CLOUD_TOP_TDIFF_BOUNDS = Netcdf._CLOUD_TOP_TDIFF_BOUNDS
  ∧ Tfrecords._TDIFF_BOUNDS = Netcdf._TDIFF_BOUNDS.
Proof. repeat split. Qed.

(** The three bounds pairs of the notebooks. *)
Lemma notebook_bounds_cases (bounds : R * R) :
  bounds ∈ [Tfrecords._T11_BOUNDS; Tfrecords._CLOUD_TOP_TDIFF_BOUNDS; Tfrecords._TDIFF_BOUNDS] →
  bounds = (243, 303) ∨ bounds = (-4, 5) ∨ bounds = (-4, 2).
Proof.
  rewrite !elem_of_cons, elem_of_nil.
  unfold Tfrecords._T11_BOUNDS, Tfrecords._CLOUD_TOP_TDIFF_BOUNDS, Tfrecords._TDIFF_BOUNDS.
  tauto.
Qed.

(** *** binary64 arithmetic of the normalization *)

Lemma SFeqb_finite_refl (s : bool) (m : positive) (e : Z) :
  SFeqb (S754_finite s m e) (S754_finite s m e) = true.
Proof.
  unfold SFeqb, SFcompare. rewrite Z.compare_refl.
  destruct s; rewrite ?Pos.compare_cont_refl; reflexivity.
Qed.

(** The finite numbers are the zeros and the numbers with a sign, a mantissa
    and an exponent. *)
Lemma float64_is_finite_spec (x : float) :
  PrimFloat.is_finite x
  = match Prim2SF x with S754_zero _ | S754_finite _ _ _ => true | _ => false end.
Proof.
  unfold PrimFloat.is_finite, PrimFloat.is_nan, PrimFloat.is_infinity.
  rewrite !FloatAxioms.eqb_spec, abs_spec.
  destruct (Prim2SF x) as [[] | [] | | s m e]; try reflexivity.
  rewrite SFeqb_finite_refl. reflexivity.
Qed.

Lemma float64_finite_cases (x : float) :
  PrimFloat.is_finite x = true →
  (∃ s, Prim2SF x = S754_zero s) ∨ (∃ s m e, Prim2SF x = S754_finite s m e).
Proof.
  rewrite float64_is_finite_spec.
  destruct (Prim2SF x) as [s | s | | s m e]; [eauto | done | done | eauto 6].
Qed.

Lemma float64_nonzero_cases (x : float) :
  PrimFloat.is_finite x = true → PrimFloat.is_zero x = false →
  ∃ s m e, Prim2SF x = S754_finite s m e.
Proof.
  intros Hfin Hnz.
  destruct (float64_finite_cases x Hfin) as [[s Hs] | H]; [| done].
  unfold PrimFloat.is_zero in Hnz. rewrite FloatAxioms.eqb_spec, Hs in Hnz.
  destruct s; vm_compute in Hnz; discriminate.
Qed.

(** A difference is finite only if both operands are. *)
Lemma float64_sub_finite (x y : float) :
  PrimFloat.is_finite (x - y) = true →
  PrimFloat.is_finite x = true ∧ PrimFloat.is_finite y = true.
Proof.
  rewrite !float64_is_finite_spec, sub_spec.
  destruct (Prim2SF x) as [[] | [] | | [] mx ex],
           (Prim2SF y) as [[] | [] | | [] my ey];
    try discriminate; split; reflexivity.
Qed.

(** x - x is +0 for a finite x. *)
Lemma float64_sub_diag (x : float) :
  PrimFloat.is_finite x = true → (x - x)%float = 0%float.
Proof.
  intros Hfin. apply Prim2SF_inj. rewrite sub_spec.
  destruct (float64_finite_cases x Hfin) as [[s ->] | (s & m & e & ->)].
  - by destruct s.
  - unfold SF64sub, SFsub. rewrite Z.min_id.
    unfold shl_align. rewrite Z.sub_diag. reflexivity.
Qed.

(** d / d is exactly 1 for a finite d other than zero: the quotient of the
    mantissas is 2^53 with remainder 0, and nothing is rounded. *)
Lemma float64_div_diag (d : float) :
  PrimFloat.is_finite d = true → PrimFloat.is_zero d = false →
  (d / d)%float = 1%float.
Proof.
  intros Hfin Hnz. apply Prim2SF_inj. rewrite div_spec.
  destruct (float64_nonzero_cases d Hfin Hnz) as (s & m & e & ->).
  unfold SF64div, SFdiv, SFdiv_core_binary.
  replace (Zdigits2 (Z.pos m) + e - (Zdigits2 (Z.pos m) + e))%Z with 0%Z by lia.
  rewrite Z.sub_diag.
  change (Z.min (fexp prec emax 0) 0) with (-53)%Z.
  change (0 - -53)%Z with 53%Z.
  cbv beta iota zeta.
  assert (Hdiv : Z.div_eucl (Z.shiftl (Z.pos m) 53) (Z.pos m) = (2 ^ 53, 0)%Z).
  { pose proof (Z.div_eucl_eq (Z.shiftl (Z.pos m) 53) (Z.pos m) ltac:(lia)) as Heq.
    pose proof (Z.mod_pos_bound (Z.shiftl (Z.pos m) 53) (Z.pos m) ltac:(lia)) as Hb.
    unfold Z.modulo in Hb.
    destruct (Z.div_eucl _ _) as [q r].
    rewrite Z.shiftl_mul_pow2 in Heq by lia.
    assert (q = 2 ^ 53)%Z by nia.
    f_equal; lia. }
  rewrite Hdiv.
  assert (Hloc : new_location (Z.pos m) 0 = loc_Exact).
  { unfold new_location, new_location_even, new_location_odd.
    by destruct (Z.even _). }
  rewrite Hloc. destruct s; reflexivity.
Qed.

(** C3, as stated, fails on float64 bounds whose difference overflows.  With
    lo = -1e308 and hi = 1e308 (the binary64 numbers nearest to them, both
    finite, hi ≠ lo) the difference hi - lo is +infinity: normalize_range
    still maps lo to 0, but it maps hi to infinity / infinity, which is
    NaN and not 1. *)
Lemma normalize_range_endpoint_overflow :
  let lo := (-0x1.1ccf385ebc8ap+1023)%float in
  let hi := 0x1.1ccf385ebc8ap+1023%float in
  PrimFloat.is_finite lo = true
  ∧ PrimFloat.is_finite hi = true
  ∧ (hi =? lo)%float = false
  ∧ (hi - lo)%float = infinity
  ∧ Float64.normalize_range lo (lo, hi) = 0%float
  ∧ Float64.normalize_range hi (lo, hi) = nan
  ∧ (Float64.normalize_range hi (lo, hi) =? 1)%float = false
  ∧ ¬ (∀ lo hi : float,
         PrimFloat.is_finite lo = true → PrimFloat.is_finite hi = true →
         (hi =? lo)%float = false →
         (Float64.normalize_range lo (lo, hi) =? 0)%float = true
         ∧ (Float64.normalize_range hi (lo, hi) =? 1)%float = true).
Proof.
  intros lo hi. split_and!; try (vm_compute; reflexivity).
  intros Hall.
  destruct (Hall lo hi) as [_ Hhi]; try (vm_compute; reflexivity).
  vm_compute in Hhi. discriminate Hhi.
Qed.

(** C3, amended.  For float64 bounds (lo, hi) whose difference hi - lo, as
    float64 computes it, is finite and not zero, normalize_range maps lo to
    zero (the quotient of +0 by hi - lo, a zero that compares equal to 0)
    and hi to exactly 1.  Such bounds are finite themselves. *)
Theorem normalize_range_endpoints (lo hi : float) :
  PrimFloat.is_finite (hi - lo) = true →
  PrimFloat.is_zero (hi - lo) = false →
  PrimFloat.is_finite lo = true
  ∧ PrimFloat.is_finite hi = true
  ∧ (Float64.normalize_range lo (lo, hi) =? 0)%float = true
  ∧ Float64.normalize_range hi (lo, hi) = 1%float.
Proof.
  intros Hfin Hnz.
  destruct (float64_sub_finite hi lo Hfin) as [Hhi Hlo].
  unfold Float64.normalize_range. simpl. split_and!; [done | done | |].
  - rewrite float64_sub_diag by done.
    rewrite FloatAxioms.eqb_spec, div_spec.
    destruct (float64_nonzero_cases _ Hfin Hnz) as (s & m & e & ->).
    by destruct s.
  - by apply float64_div_diag.
Qed.

Lemma normalize_range_endpoints_witness :
  PrimFloat.is_finite 243%float = true
  ∧ PrimFloat.is_finite 303%float = true
  ∧ (Float64.normalize_range 243 (243, 303) =? 0)%float = true
  ∧ (Float64.normalize_range 303 (243, 303) = 1)%float.
Proof. apply (normalize_range_endpoints 243%float 303%float); reflexivity. Defined.

(** C2.  normalize_range does not map into [0, 1], against its docstring
    ("Maps data to the range [0, 1]"): it does not clip.  At x = 0 with the
    bounds (243, 303) it returns -243/60, which is below 0 (in binary64:
    -4.05 rounded, below 0 as well); so it is not true that every input is
    mapped into [0, 1]. *)
Lemma normalize_range_below_zero :
  Tfrecords.normalize_range (scalar 0) Tfrecords._T11_BOUNDS = scalar (-243 / 60)
  ∧ Netcdf.normalize_range (scalar 0) Netcdf._T11_BOUNDS = scalar (-243 / 60)
  ∧ -243 / 60 < 0
  ∧ ¬ (∀ (x : R) (bounds : R * R),
         bounds ∈ [Tfrecords._T11_BOUNDS; Tfrecords._CLOUD_TOP_TDIFF_BOUNDS;
                   Tfrecords._TDIFF_BOUNDS] →
         Forall (λ y, 0 <= y <= 1) (data (Tfrecords.normalize_range (scalar x) bounds)))
  ∧ (Float64.normalize_range 0 (243, 303) = -0x1.0333333333333p+2)%float
  ∧ (Float64.normalize_range 0 (243, 303) <? 0)%float = true.
Proof.
  assert (Heq : Tfrecords.normalize_range (scalar 0) Tfrecords._T11_BOUNDS
                = scalar (-243 / 60)).
  { rewrite normalize_range_scalar. unfold Tfrecords._T11_BOUNDS. simpl.
    f_equal. field. }
  split_and!; [exact Heq | exact Heq | lra | | reflexivity | reflexivity].
  intros Hall.
  specialize (Hall 0 Tfrecords._T11_BOUNDS (list_elem_of_here _ _)).
  rewrite Heq in Hall. simpl in Hall.
  apply Forall_cons in Hall as [[Hge _] _]. lra.
Qed.

(** ** The composite *)

Lemma false_color_image_channels (bt : gmap string tensor) :
  Tfrecords.false_color_image bt
  = '(r, g, b) ← Tfrecords.ash_channels bt;
    stacked ← Np.stack_last [r; g; b];
    Ok (Np.clip stacked 0 1).
Proof.
  unfold Tfrecords.false_color_image, Tfrecords.ash_channels.
  repeat (case_result; try reflexivity).
Qed.

(** The composite of the tfrecords notebook reads its dictionary at three
    keys only. *)
Lemma tfrecords_composite_reads (bt bt' : gmap string tensor) :
  bt !! "data_12um" = bt' !! "data_12um" →
  bt !! "data_11um" = bt' !! "data_11um" →
  bt !! "cloud_top" = bt' !! "cloud_top" →
  Tfrecords.false_color_image bt = Tfrecords.false_color_image bt'.
Proof.
  intros H12 H11 Hct.
  unfold Tfrecords.false_color_image, getitem.
  rewrite H12, H11, Hct. reflexivity.
Qed.

Lemma netcdf_composite_reads (bn bn' : gmap Z (ndarray R)) :
  bn !! 15%Z = bn' !! 15%Z →
  bn !! 14%Z = bn' !! 14%Z →
  bn !! 11%Z = bn' !! 11%Z →
  Netcdf.false_color_image bn = Netcdf.false_color_image bn'.
Proof.
  intros H15 H14 H11.
  unfold Netcdf.false_color_image, getitem.
  rewrite H15, H14, H11. reflexivity.
Qed.

(** On float64 arrays under corresponding keys the two composites are one
    function. *)
Lemma composites_agree (bt : gmap string tensor) (bn : gmap Z (ndarray R))
    (t12 t11 tct : ndarray R) :
  bt !! "data_12um" = Some (Dense DT_DOUBLE t12) →
  bt !! "data_11um" = Some (Dense DT_DOUBLE t11) →
  bt !! "cloud_top" = Some (Dense DT_DOUBLE tct) →
  bn !! 15%Z = Some t12 →
  bn !! 14%Z = Some t11 →
  bn !! 11%Z = Some tct →
  Tfrecords.false_color_image bt = Netcdf.false_color_image bn.
Proof.
  intros H12 H11 Hct H15 H14 H11'.
  unfold Tfrecords.false_color_image, Netcdf.false_color_image, getitem.
  rewrite H12, H11, Hct, H15, H14, H11'.
  reflexivity.
Qed.

Lemma clip_data_range (a : ndarray R) :
  Forall (λ y, 0 <= y <= 1) (data (Np.clip a 0 1)).
Proof.
  unfold Np.clip, Np.elementwise. simpl.
  apply Forall_fmap, Forall_forall. intros x _. apply clip_unit_interval.
Qed.

Lemma chunks_elements {A} (k n : nat) (l blk : list A) (y : A) :
  blk ∈ Np.chunks k n l → y ∈ blk → y ∈ l.
Proof.
  revert l. induction k as [|k IH]; intros l; simpl.
  - intros H. by apply elem_of_nil in H.
  - rewrite elem_of_cons. intros [-> | Hin] Hy.
    + by eapply subseteq_take.
    + eapply subseteq_drop. by eapply IH.
Qed.

Lemma last_axis_elements {A} (c : nat) (a ch : ndarray A) (y : A) :
  Np.last_axis c a = Ok ch → y ∈ data ch → y ∈ data a.
Proof.
  unfold Np.last_axis. destruct (reverse (shape a)) as [|k outer]; [done |].
  case_decide; [| done]. intros [= <-]. simpl.
  rewrite list_elem_of_omap. intros (blk & Hblk & Hy).
  eapply chunks_elements; [exact Hblk |].
  by eapply list_elem_of_lookup_2.
Qed.

Lemma broadcast_rev_same (r : list nat) : Np.broadcast_rev r r = Some r.
Proof.
  induction r as [|d r IH]; [done |]. simpl.
  unfold Np.broadcast_dim. rewrite decide_True by done. simpl.
  by rewrite IH.
Qed.

Lemma broadcast_shapes_same (s : list nat) : Np.broadcast_shapes s s = Some s.
Proof.
  unfold Np.broadcast_shapes. rewrite broadcast_rev_same. simpl.
  by rewrite reverse_involutive.
Qed.

Lemma binary_same_shape (op : R → R → R) (a b : ndarray R) :
  shape b = shape a →
  ∃ d, Np.binary op a b = Ok (mk_ndarray (shape a) d).
Proof.
  intros Hs. unfold Np.binary. rewrite Hs, broadcast_shapes_same. eauto.
Qed.

Lemma netcdf_composite_clipped (bn : gmap Z (ndarray R)) (img : ndarray R) :
  Netcdf.false_color_image bn = Ok img → ∃ stacked, img = Np.clip stacked 0 1.
Proof.
  unfold Netcdf.false_color_image.
  repeat (case_result; try discriminate).
  intros [= <-]. eauto.
Qed.

Lemma netcdf_composite_same_shape (bn : gmap Z (ndarray R)) (t12 t11 tct : ndarray R) :
  bn !! 15%Z = Some t12 →
  bn !! 14%Z = Some t11 →
  bn !! 11%Z = Some tct →
  shape t12 = shape t11 →
  shape tct = shape t11 →
  ∃ img, Netcdf.false_color_image bn = Ok img ∧ shape img = shape t11 ++ [3%nat].
Proof.
  intros H15 H14 H11 Hs12 Hsct.
  unfold Netcdf.false_color_image, getitem. rewrite H15, H14, H11.
  cbn [mbind result_bind]. unfold Np.subtract.
  destruct (binary_same_shape Rminus t12 t11) as [d1 ->]; [done |].
  destruct (binary_same_shape Rminus t11 tct) as [d2 ->]; [done |].
  cbn [mbind result_bind]. unfold Np.stack_last.
  rewrite decide_True.
  - cbn [mbind result_bind]. eexists. split; [reflexivity |]. simpl. by rewrite Hs12.
  - repeat constructor; simpl; congruence.
Qed.

(** C1. When the dictionary holds real-valued arrays under the three keys
    the composite reads, every element of the image false_color_image
    returns, and so every element of each of its channels, lies in [0, 1];
    and an image is returned whenever the three arrays have one shape.
    Both notebooks. *)
Theorem false_color_image_unit_interval
    (bt : gmap string tensor) (bn : gmap Z (ndarray R)) (t12 t11 tct : ndarray R) :
  bt !! "data_12um" = Some (Dense DT_DOUBLE t12) →
  bt !! "data_11um" = Some (Dense DT_DOUBLE t11) →
  bt !! "cloud_top" = Some (Dense DT_DOUBLE tct) →
  bn !! 15%Z = Some t12 →
  bn !! 14%Z = Some t11 →
  bn !! 11%Z = Some tct →
  (∀ img,
     Tfrecords.false_color_image bt = Ok img ∨ Netcdf.false_color_image bn = Ok img →
     Forall (λ y, 0 <= y <= 1) (data img)
     ∧ ∀ c channel, Np.last_axis c img = Ok channel →
         Forall (λ y, 0 <= y <= 1) (data channel))
  ∧ (shape t12 = shape t11 → shape tct = shape t11 →
     ∃ img, Tfrecords.false_color_image bt = Ok img
            ∧ Netcdf.false_color_image bn = Ok img
            ∧ shape img = shape t11 ++ [3%nat]).
Proof.
  intros H12 H11 Hct H15 H14 H11'.
  pose proof (composites_agree bt bn t12 t11 tct H12 H11 Hct H15 H14 H11') as Hsame.
  split.
  - intros img Himg.
    assert (Himg' : Netcdf.false_color_image bn = Ok img)
      by (destruct Himg; congruence).
    apply netcdf_composite_clipped in Himg' as [stacked ->].
    pose proof (clip_data_range stacked) as Hrange.
    split; [exact Hrange |].
    intros c channel Hch. apply Forall_forall. intros y Hy.
    rewrite Forall_forall in Hrange. apply Hrange.
    by eapply last_axis_elements.
  - intros Hs12 Hsct.
    destruct (netcdf_composite_same_shape bn t12 t11 tct) as (img & Himg & Hshape); try done.
    exists img. by rewrite Hsame.
Qed.

Lemma false_color_image_unit_interval_witness :
  (∀ img,
     Tfrecords.false_color_image uniform_bands = Ok img
     ∨ Netcdf.false_color_image uniform_bands_netcdf = Ok img →
     Forall (λ y, 0 <= y <= 1) (data img)
     ∧ ∀ c channel, Np.last_axis c img = Ok channel →
         Forall (λ y, 0 <= y <= 1) (data channel))
  ∧ (shape (pixel 273) = shape (pixel 273) → shape (pixel 273) = shape (pixel 273) →
     ∃ img, Tfrecords.false_color_image uniform_bands = Ok img
            ∧ Netcdf.false_color_image uniform_bands_netcdf = Ok img
            ∧ shape img = shape (pixel 273) ++ [3%nat]).
Proof.
  apply (false_color_image_unit_interval uniform_bands uniform_bands_netcdf
           (pixel 273) (pixel 273) (pixel 273)); reflexivity.
Defined.

(** ** Blocks, broadcasting and stacking *)

Lemma numel_app (s1 s2 : list nat) : numel (s1 ++ s2) = (numel s1 * numel s2)%nat.
Proof.
  induction s1 as [|d s1 IH]; simpl; [lia |].
  unfold numel in *. simpl. rewrite IH. lia.
Qed.

Lemma numel_reverse (s : list nat) : numel (reverse s) = numel s.
Proof.
  induction s as [|d s IH]; [done |].
  rewrite reverse_cons, numel_app, IH. unfold numel. simpl. lia.
Qed.

Lemma chunks_concat {A} (k n : nat) (l : list A) :
  length l = (k * n)%nat →
  concat (Np.chunks k n l) = l ∧ Forall (λ blk, length blk = n) (Np.chunks k n l).
Proof.
  revert l. induction k as [|k IH]; intros l Hlen; simpl in *.
  - split; [| constructor]. by destruct l.
  - destruct (IH (drop n l)) as [Hc Hf].
    { rewrite length_drop. lia. }
    split.
    + rewrite Hc. apply take_drop.
    + constructor; [| done]. rewrite length_take. lia.
Qed.

Lemma broadcast_data_same {A} (s : list nat) (d : list A) :
  length d = numel s → Np.broadcast_data s s d = d.
Proof.
  revert d. induction s as [|f s IH]; intros d Hlen; [done |].
  simpl. rewrite decide_True by done.
  destruct (chunks_concat f (numel s) d) as [Hc Hf]; [done |].
  rewrite <- Hc at 2. f_equal.
  rewrite <- (list_fmap_id (Np.chunks f (numel s) d)) at 2.
  apply Forall_fmap_ext. eapply Forall_impl; [exact Hf |].
  intros blk Hblk. by apply IH.
Qed.

Lemma broadcast_to_same {A} (a : ndarray A) :
  wf_array a → Np.broadcast_to a (shape a) = data a.
Proof.
  intros Hwf. unfold Np.broadcast_to. rewrite Nat.sub_diag. simpl.
  by apply broadcast_data_same.
Qed.

(** Two well-formed arrays of one shape are combined position by
    position. *)
Lemma binary_pointwise (op : R → R → R) (a b : ndarray R) :
  wf_array a → wf_array b → shape b = shape a →
  Np.binary op a b = Ok (mk_ndarray (shape a) (zip_with op (data a) (data b))).
Proof.
  intros Ha Hb Hs. unfold Np.binary. rewrite Hs, broadcast_shapes_same.
  assert (Hb' : Np.broadcast_to b (shape a) = data b)
    by (rewrite <- Hs; by apply broadcast_to_same).
  by rewrite Hb', broadcast_to_same.
Qed.

Lemma heads_lookup {A} (n : nat) (cols : list (list A)) :
  Forall (λ l, length l = S n) cols →
  length (cols ≫= take 1) = length cols
  ∧ ∀ c, (cols ≫= take 1) !! c = cols !! c ≫= head.
Proof.
  induction 1 as [|l cols Hl _ [IHlen IHc]]; [done |].
  destruct l as [|x l]; [done |].
  rewrite bind_cons. change (take 1 (x :: l)) with [x].
  split; [by rewrite length_app, IHlen |].
  intros [|c]; [done |]. apply IHc.
Qed.

Lemma heads_fmap {A B} (f : A → B) (cols : list (list A)) :
  f <$> (cols ≫= take 1) = (fmap (M:=list) f <$> cols) ≫= take 1.
Proof.
  induction cols as [|l cols IH]; [done |].
  rewrite fmap_cons, !bind_cons, fmap_app, IH. by rewrite fmap_take.
Qed.

Lemma interleave_fmap {A B} (f : A → B) (n : nat) (cols : list (list A)) :
  f <$> Np.interleave n cols = Np.interleave n (fmap (M:=list) f <$> cols).
Proof.
  revert cols. induction n as [|n IH]; intros cols; [done |].
  cbn [Np.interleave]. rewrite fmap_app, IH, heads_fmap. do 2 f_equal.
  rewrite <- !list_fmap_compose. apply list_fmap_ext.
  intros i l _. simpl. apply fmap_drop.
Qed.

(** Reading index [c] of the last axis of a stack gives back column [c]. *)
Lemma interleave_column {A} (n : nat) (cols : list (list A)) (c : nat) (col : list A) :
  Forall (λ l, length l = n) cols →
  cols !! c = Some col →
  omap (λ px, px !! c) (Np.chunks n (length cols) (Np.interleave n cols)) = col.
Proof.
  revert cols col. induction n as [|n IH]; intros cols col Hlen Hc.
  - simpl. rewrite Forall_forall in Hlen.
    symmetry. apply nil_length_inv, Hlen. by eapply list_elem_of_lookup_2.
  - destruct (heads_lookup n cols Hlen) as [Hhl Hhc].
    cbn [Np.interleave Np.chunks omap list_omap].
    rewrite take_app_length', drop_app_length' by (by rewrite Hhl).
    rewrite Hhc, Hc. cbn [mbind option_bind].
    assert (Hcol : length col = S n).
    { rewrite Forall_forall in Hlen. apply Hlen. by eapply list_elem_of_lookup_2. }
    destruct col as [|x col]; [done |]. simpl. f_equal.
    rewrite <- (length_fmap (drop 1) cols). apply IH.
    + apply Forall_fmap. eapply Forall_impl; [exact Hlen |].
      intros l Hl. simpl in *. rewrite length_drop. lia.
    + by rewrite list_lookup_fmap, Hc.
Qed.

Lemma last_axis_stack (n c : nat) (s : list nat) (cols : list (list R)) (col : list R) :
  numel s = n →
  Forall (λ l, length l = n) cols →
  cols !! c = Some col →
  Np.last_axis c (mk_ndarray (s ++ [length cols]) (Np.interleave n cols))
  = Ok (mk_ndarray s col).
Proof.
  intros Hn Hlen Hc. unfold Np.last_axis. simpl.
  rewrite reverse_snoc. rewrite decide_True by (by eapply lookup_lt_Some).
  rewrite reverse_involutive, numel_reverse, Hn.
  by rewrite (interleave_column n cols c col).
Qed.

Lemma normalize_range_length (a : ndarray R) (bounds : R * R) :
  length (data (Tfrecords.normalize_range a bounds)) = length (data a).
Proof. rewrite normalize_range_data. simpl. apply length_fmap. Qed.

(** C4, amended.  On well-formed real-valued arrays of one shape under the
    three keys, the red channel of the image is the clip of normalize_range
    applied to the difference of the 12 um and 11 um bands with
    _TDIFF_BOUNDS, the green channel is the clip of normalize_range applied
    to the difference of the 11 um and cloud_top bands with
    _CLOUD_TOP_TDIFF_BOUNDS, and the blue channel is the clip of
    normalize_range applied to the 11 um band itself with _T11_BOUNDS.
    Both notebooks. *)
Theorem ash_channels_composition
    (bt : gmap string tensor) (bn : gmap Z (ndarray R)) (t12 t11 tct : ndarray R) :
  bt !! "data_12um" = Some (Dense DT_DOUBLE t12) →
  bt !! "data_11um" = Some (Dense DT_DOUBLE t11) →
  bt !! "cloud_top" = Some (Dense DT_DOUBLE tct) →
  bn !! 15%Z = Some t12 →
  bn !! 14%Z = Some t11 →
  bn !! 11%Z = Some tct →
  wf_array t12 → wf_array t11 → wf_array tct →
  shape t12 = shape t11 → shape tct = shape t11 →
  ∃ d12_11 d11_ct img,
    Np.subtract t12 t11 = Ok d12_11
    ∧ Np.subtract t11 tct = Ok d11_ct
    ∧ Tfrecords.ash_channels bt
      = Ok (Tfrecords.normalize_range d12_11 Tfrecords._TDIFF_BOUNDS,
            Tfrecords.normalize_range d11_ct Tfrecords._CLOUD_TOP_TDIFF_BOUNDS,
            Tfrecords.normalize_range t11 Tfrecords._T11_BOUNDS)
    ∧ Tfrecords.false_color_image bt = Ok img
    ∧ Netcdf.false_color_image bn = Ok img
    ∧ Np.last_axis 0 img
      = Ok (Np.clip (Tfrecords.normalize_range d12_11 Tfrecords._TDIFF_BOUNDS) 0 1)
    ∧ Np.last_axis 1 img
      = Ok (Np.clip (Tfrecords.normalize_range d11_ct Tfrecords._CLOUD_TOP_TDIFF_BOUNDS) 0 1)
    ∧ Np.last_axis 2 img
      = Ok (Np.clip (Tfrecords.normalize_range t11 Tfrecords._T11_BOUNDS) 0 1).
Proof.
  intros H12 H11 Hct H15 H14 H11' W12 W11 Wct Hs12 Hsct.
  pose proof (binary_pointwise Rminus t12 t11 W12 W11 (eq_sym Hs12)) as Hr.
  pose proof (binary_pointwise Rminus t11 tct W11 Wct Hsct) as Hg.
  rewrite Hs12 in Hr.
  set (d_r := mk_ndarray (shape t11) (zip_with Rminus (data t12) (data t11))) in *.
  set (d_g := mk_ndarray (shape t11) (zip_with Rminus (data t11) (data tct))) in *.
  assert (Hch : Tfrecords.ash_channels bt
      = Ok (Tfrecords.normalize_range d_r Tfrecords._TDIFF_BOUNDS,
            Tfrecords.normalize_range d_g Tfrecords._CLOUD_TOP_TDIFF_BOUNDS,
            Tfrecords.normalize_range t11 Tfrecords._T11_BOUNDS)).
  { unfold Tfrecords.ash_channels, getitem, Tfrecords.tensor_subtract.
    rewrite H12, H11, Hct. cbn [mbind result_bind Tfrecords.as_real].
    fold Np.subtract in Hr, Hg. by rewrite Hr, Hg. }
  set (r := Tfrecords.normalize_range d_r _) in *.
  set (g := Tfrecords.normalize_range d_g _) in *.
  set (b := Tfrecords.normalize_range t11 _) in *.
  set (clipf := λ x, Rmin (Rmax x 0) 1).
  set (cols := fmap (M:=list) clipf <$> [data r; data g; data b]).
  assert (Himg : Tfrecords.false_color_image bt
      = Ok (mk_ndarray (shape t11 ++ [length cols])
              (Np.interleave (numel (shape t11)) cols))).
  { rewrite false_color_image_channels, Hch. cbn [mbind result_bind].
    unfold Np.stack_last. rewrite decide_True by (repeat constructor).
    cbn [mbind result_bind]. unfold Np.clip, Np.elementwise.
    cbn [shape data]. by rewrite interleave_fmap. }
  assert (Hlen : Forall (λ l, length l = numel (shape t11)) cols).
  { assert (L12 : length (data t12) = numel (shape t11)) by (rewrite <- Hs12; exact W12).
    assert (Lct : length (data tct) = numel (shape t11)) by (rewrite <- Hsct; exact Wct).
    unfold wf_array in W11.
    repeat constructor; rewrite length_fmap; unfold r, g, b;
      rewrite normalize_range_length; simpl; rewrite ?length_zip_with; lia. }
  exists d_r, d_g. eexists. 
  split_and!; [done | done | done | exact Himg | | |  |].
  - rewrite <- Himg. symmetry. by eapply composites_agree.
  - by apply last_axis_stack.
  - by apply last_axis_stack.
  - by apply last_axis_stack.
Qed.

Lemma ash_channels_composition_witness :
  ∃ d12_11 d11_ct img,
    Np.subtract (pixel 273) (pixel 273) = Ok d12_11
    ∧ Np.subtract (pixel 273) (pixel 273) = Ok d11_ct
    ∧ Tfrecords.ash_channels uniform_bands
      = Ok (Tfrecords.normalize_range d12_11 Tfrecords._TDIFF_BOUNDS,
            Tfrecords.normalize_range d11_ct Tfrecords._CLOUD_TOP_TDIFF_BOUNDS,
            Tfrecords.normalize_range (pixel 273) Tfrecords._T11_BOUNDS)
    ∧ Tfrecords.false_color_image uniform_bands = Ok img
    ∧ Netcdf.false_color_image uniform_bands_netcdf = Ok img
    ∧ Np.last_axis 0 img
      = Ok (Np.clip (Tfrecords.normalize_range d12_11 Tfrecords._TDIFF_BOUNDS) 0 1)
    ∧ Np.last_axis 1 img
      = Ok (Np.clip (Tfrecords.normalize_range d11_ct Tfrecords._CLOUD_TOP_TDIFF_BOUNDS) 0 1)
    ∧ Np.last_axis 2 img
      = Ok (Np.clip (Tfrecords.normalize_range (pixel 273) Tfrecords._T11_BOUNDS) 0 1).
Proof.
  apply (ash_channels_composition uniform_bands uniform_bands_netcdf
           (pixel 273) (pixel 273) (pixel 273)); reflexivity.
Defined.

Lemma uniform_bands_lookup (k : string) (v : tensor) :
  uniform_bands !! k = Some v → v = Dense DT_DOUBLE (pixel 273).
Proof.
  unfold uniform_bands, dict_of. simpl. intros H.
  repeat (apply lookup_insert_Some in H as [[_ <-] | [_ H]]; [done |]).
  by rewrite lookup_empty in H.
Qed.

(** C4, as stated, fails for the blue channel: with all nine bands at
    273 K on one pixel, the blue channel before the clip is
    normalize_range of the 11 um band, and no difference of two entries of
    the dictionary gives it under normalize_range with any of the three
    constant bounds. *)
Lemma blue_channel_is_no_band_difference :
  ∃ r g b,
    Tfrecords.ash_channels uniform_bands = Ok (r, g, b)
    ∧ b = Tfrecords.normalize_range (pixel 273) Tfrecords._T11_BOUNDS
    ∧ ¬ ∃ (band1 band2 : string) (bounds : R * R),
          bounds ∈ [Tfrecords._T11_BOUNDS; Tfrecords._CLOUD_TOP_TDIFF_BOUNDS;
                    Tfrecords._TDIFF_BOUNDS]
          ∧ (x ← getitem Tfrecords.str_key uniform_bands band1;
             y ← getitem Tfrecords.str_key uniform_bands band2;
             d ← Tfrecords.tensor_subtract x y;
             Ok (Tfrecords.normalize_range d bounds)) = Ok b.
Proof.
  do 3 eexists. split; [reflexivity |]. split; [reflexivity |].
  intros (band1 & band2 & bounds & Hb & Heq).
  unfold getitem in Heq.
  destruct (uniform_bands !! band1) as [x|] eqn:H1; [| done].
  destruct (uniform_bands !! band2) as [y|] eqn:H2; [| done].
  apply uniform_bands_lookup in H1 as ->.
  apply uniform_bands_lookup in H2 as ->.
  cbn [mbind result_bind Tfrecords.tensor_subtract Tfrecords.as_real] in Heq.
  unfold Np.subtract in Heq.
  rewrite (binary_pointwise Rminus (pixel 273) (pixel 273)) in Heq by done.
  cbn [mbind result_bind] in Heq. rewrite !normalize_range_data in Heq.
  injection Heq as Heq.
  apply notebook_bounds_cases in Hb as [-> | [-> | ->]]; simpl in Heq; lra.
Qed.

(** C5.  The two notebooks define the same normalize_range and the same
    three bounds, and on every triple of arrays the composite of the
    tfrecords notebook on {'data_11um': t11um, 'data_12um': t12um,
    'cloud_top': tcloudtop} equals the composite of the NetCDF notebook on
    {14: t11um, 15: t12um, 11: tcloudtop}. *)
Theorem composites_equivalent (t11um t12um tcloudtop : ndarray R) :
  Tfrecords.normalize_range = Netcdf.normalize_range
  ∧ Tfrecords._T11_BOUNDS = Netcdf._T11_BOUNDS
  ∧ Tfrecords._CLOUD_TOP_TDIFF_BOUNDS = Netcdf._CLOUD_TOP_TDIFF_BOUNDS
  ∧ Tfrecords._TDIFF_BOUNDS = Netcdf._TDIFF_BOUNDS
  ∧ Tfrecords.false_color_image
      (dict_of [("data_11um"%string, Dense DT_DOUBLE t11um);
                ("data_12um"%string, Dense DT_DOUBLE t12um);
                ("cloud_top"%string, Dense DT_DOUBLE tcloudtop)])
    = Netcdf.false_color_image
        (dict_of [(14%Z, t11um); (15%Z, t12um); (11%Z, tcloudtop)]).
Proof.
  destruct normalize_range_same as (Hn & Hb1 & Hb2 & Hb3).
  split_and!; [exact Hn | exact Hb1 | exact Hb2 | exact Hb3 |].
  apply (composites_agree _ _ t12um t11um tcloudtop); reflexivity.
Qed.

(** C9.  Two dictionaries that agree on 'data_12um', 'data_11um' and
    'cloud_top' (on 15, 14 and 11 in the NetCDF notebook) give the same
    result of false_color_image, whatever their other entries are. *)
Theorem composite_reads_three_bands
    (bt bt' : gmap string tensor) (bn bn' : gmap Z (ndarray R)) :
  bt !! "data_12um" = bt' !! "data_12um" →
  bt !! "data_11um" = bt' !! "data_11um" →
  bt !! "cloud_top" = bt' !! "cloud_top" →
  bn !! 15%Z = bn' !! 15%Z →
  bn !! 14%Z = bn' !! 14%Z →
  bn !! 11%Z = bn' !! 11%Z →
  Tfrecords.false_color_image bt = Tfrecords.false_color_image bt'
  ∧ Netcdf.false_color_image bn = Netcdf.false_color_image bn'.
Proof.
  intros. split.
  - by apply tfrecords_composite_reads.
  - by apply netcdf_composite_reads.
Qed.

Lemma composite_reads_three_bands_witness :
  uniform_bands ≠ uniform_bands_other
  ∧ uniform_bands_netcdf ≠ uniform_bands_netcdf_other
  ∧ Tfrecords.false_color_image uniform_bands
    = Tfrecords.false_color_image uniform_bands_other
  ∧ Netcdf.false_color_image uniform_bands_netcdf
    = Netcdf.false_color_image uniform_bands_netcdf_other.
Proof.
  split.
  { intros Heq. apply (f_equal (λ d, d !! "projection_wkt")) in Heq. discriminate Heq. }
  split.
  { intros Heq. apply (f_equal (λ d, d !! 13%Z)) in Heq. discriminate Heq. }
  apply (composite_reads_three_bands uniform_bands uniform_bands_other
           uniform_bands_netcdf uniform_bands_netcdf_other); reflexivity.
Defined.

(** ** Broadcasting a scalar *)

Lemma numel_ones (k : nat) : numel (replicate k 1%nat) = 1%nat.
Proof. induction k as [|k IH]; [done |]. unfold numel in *. simpl. lia. Qed.

Lemma concat_replicate {A} (t n : nat) (x : A) :
  concat (replicate t (replicate n x)) = replicate (t * n) x.
Proof.
  induction t as [|t IH]; [done |]. simpl. by rewrite IH, replicate_add.
Qed.

Lemma broadcast_data_scalar {A} (s : list nat) (x : A) :
  Np.broadcast_data (replicate (length s) 1%nat) s [x] = replicate (numel s) x.
Proof.
  induction s as [|t s IH]; [done |].
  cbn [length replicate Np.broadcast_data]. case_decide as Ht.
  - subst t. rewrite numel_ones. cbn [Np.chunks take drop map concat].
    rewrite IH, app_nil_r. unfold numel. simpl. f_equal. lia.
  - rewrite IH. apply concat_replicate.
Qed.

Lemma broadcast_to_scalar {A} (x : A) (s : list nat) :
  Np.broadcast_to (scalar x) s = replicate (numel s) x.
Proof.
  unfold Np.broadcast_to. simpl. rewrite Nat.sub_0_r, app_nil_r.
  apply broadcast_data_scalar.
Qed.

Lemma broadcast_shapes_scalar_l (s : list nat) : Np.broadcast_shapes [] s = Some s.
Proof.
  unfold Np.broadcast_shapes. rewrite reverse_nil. simpl.
  by rewrite reverse_involutive.
Qed.

Lemma broadcast_shapes_scalar_r (s : list nat) : Np.broadcast_shapes s [] = Some s.
Proof.
  unfold Np.broadcast_shapes. rewrite reverse_nil.
  destruct (reverse s) eqn:Hr; simpl; rewrite <- Hr; by rewrite reverse_involutive.
Qed.

Lemma zip_with_replicate_l {A B C} (f : A → B → C) (x : A) (l : list B) :
  zip_with f (replicate (length l) x) l = f x <$> l.
Proof. induction l as [|y l IH]; [done |]. simpl. by rewrite IH. Qed.

Lemma zip_with_replicate_r {A B C} (f : A → B → C) (l : list A) (y : B) :
  zip_with f l (replicate (length l) y) = (λ x, f x y) <$> l.
Proof. induction l as [|x l IH]; [done |]. simpl. by rewrite IH. Qed.

(** A 0-d array against a well-formed array: the number is combined with
    every element. *)
Lemma binary_scalar_l (op : R → R → R) (x : R) (a : ndarray R) :
  wf_array a →
  Np.binary op (scalar x) a = Ok (mk_ndarray (shape a) (op x <$> data a)).
Proof.
  intros Hwf. unfold Np.binary. cbn [shape scalar].
  rewrite broadcast_shapes_scalar_l, broadcast_to_scalar, broadcast_to_same by done.
  rewrite <- Hwf. by rewrite zip_with_replicate_l.
Qed.

Lemma binary_scalar_r (op : R → R → R) (a : ndarray R) (y : R) :
  wf_array a →
  Np.binary op a (scalar y) = Ok (mk_ndarray (shape a) ((λ x, op x y) <$> data a)).
Proof.
  intros Hwf. unfold Np.binary. cbn [shape scalar].
  rewrite broadcast_shapes_scalar_r, broadcast_to_scalar, broadcast_to_same by done.
  rewrite <- Hwf. by rewrite zip_with_replicate_r.
Qed.

Lemma wf_fmap (s : list nat) (f : R → R) (l : list R) :
  length l = numel s → wf_array (mk_ndarray s (f <$> l)).
Proof. intros Hl. unfold wf_array. simpl. by rewrite length_fmap. Qed.

(** C6.  For a band whose file holds positive radiances Rad, a constant
    planck_fk1 > 0 and a constant planck_bc2 ≠ 0, the brightness
    temperature the NetCDF notebook computes is, at every pixel, the
    composition (fk2 / ln (fk1 / Rad + 1) - bc1) / bc2 of the operations of
    line 95, the four constants being broadcast against Rad, and it is
    stored under the band id. *)
Theorem brightness_temperature_planck `{FS : Netcdf.FileSystem}
    (band_id : Z) (path : string) (brightness_temperatures : gmap Z (ndarray R))
    (dataset : gmap string (ndarray R)) (fk1 fk2 bc1 bc2 : R) (rad : ndarray R) :
  Netcdf.open_dataset path = Ok dataset →
  dataset !! "planck_fk1" = Some (scalar fk1) →
  dataset !! "planck_fk2" = Some (scalar fk2) →
  dataset !! "planck_bc1" = Some (scalar bc1) →
  dataset !! "planck_bc2" = Some (scalar bc2) →
  dataset !! "Rad" = Some rad →
  wf_array rad →
  Forall (λ Rad, 0 < Rad) (data rad) →
  0 < fk1 →
  bc2 ≠ 0 →
  let bt := mk_ndarray (shape rad)
              ((λ Rad, (fk2 / ln (fk1 / Rad + 1) - bc1) / bc2) <$> data rad) in
  Netcdf.brightness_temperature dataset = Ok bt
  ∧ Netcdf.load_bands [(band_id, path)] brightness_temperatures
    = (<[band_id := bt]> brightness_temperatures, Ok ()).
Proof.
  intros Hopen Hfk1 Hfk2 Hbc1 Hbc2 Hrad Hwf _ _ _ bt.
  assert (Hbt : Netcdf.brightness_temperature dataset = Ok bt).
  { unfold Netcdf.brightness_temperature, Netcdf.getattr.
    rewrite Hfk1, Hfk2, Hbc1, Hbc2, Hrad. cbn [mbind result_bind].
    unfold Np.divide, Np.subtract, Np.log, Np.elementwise.
    rewrite binary_scalar_l by done. cbn [mbind result_bind shape data].
    rewrite binary_scalar_l by (rewrite <- !list_fmap_compose; by apply wf_fmap).
    cbn [mbind result_bind shape data].
    rewrite binary_scalar_r by (rewrite <- !list_fmap_compose; by apply wf_fmap).
    cbn [mbind result_bind shape data].
    rewrite binary_scalar_r by (rewrite <- !list_fmap_compose; by apply wf_fmap).
    cbn [shape data]. by rewrite <- !list_fmap_compose. }
  split.
  - exact Hbt.
  - cbn [Netcdf.load_bands]. rewrite Hopen. cbn [mbind result_bind]. by rewrite Hbt.
Qed.

Lemma brightness_temperature_planck_witness :
  let bt := mk_ndarray [1; 2]%nat
              ((λ Rad, (1286 / ln (8510 / Rad + 1) - 0) / 1) <$> [1; 2]) in
  Netcdf.brightness_temperature sample_dataset = Ok bt
  ∧ Netcdf.load_bands (FS:=sample_filesystem) [(11%Z, "band11.nc"%string)] ∅
    = (<[11%Z := bt]> ∅, Ok ()).
Proof.
  apply (brightness_temperature_planck (FS:=sample_filesystem) 11 "band11.nc" ∅
           sample_dataset 8510 1286 0 1 (mk_ndarray [1; 2]%nat [1; 2]));
    try reflexivity.
  - repeat constructor; lra.
  - lra.
  - lra.
Defined.

(** ** Parsing a record *)

Lemma collect_Ok {V} (m : gmap string (result V)) (m' : gmap string V) :
  Tfrecords.collect m = Ok m' ↔ m = Ok <$> m'.
Proof.
  unfold Tfrecords.collect. split.
  - destruct (head _) as [e|] eqn:Hhead; [done |]. intros [= <-].
    apply head_None in Hhead.
    apply map_eq. intros k. rewrite lookup_fmap, lookup_omap.
    destruct (m !! k) as [[v|e]|] eqn:Hk; simpl; try done.
    exfalso. apply elem_of_map_to_list in Hk.
    assert (He : e ∈ omap (λ kv : string * result V, Tfrecords.error_of kv.2) (map_to_list m)).
    { apply list_elem_of_omap. by exists (k, Raise e). }
    rewrite Hhead in He. by apply elem_of_nil in He.
  - intros ->.
    assert (Hnil : omap (λ kv : string * result V, Tfrecords.error_of kv.2)
                     (map_to_list (Ok <$> m')) = []).
    { apply elem_of_nil_inv. intros e [[k r] [Hin He]]%list_elem_of_omap.
      apply elem_of_map_to_list in Hin. rewrite lookup_fmap in Hin.
      destruct (m' !! k); simplify_eq/=. }
    rewrite Hnil. simpl. f_equal.
    apply map_eq. intros k. rewrite lookup_omap, lookup_fmap.
    by destruct (m' !! k).
Qed.

Lemma parse_feature_kind (ex : gmap string Tfrecords.feature) (key : string)
    (cfg : Tfrecords.feature_config) (t : tensor) :
  Tfrecords.parse_feature ex key cfg = Ok t → tensor_kind t = config_kind cfg.
Proof.
  unfold Tfrecords.parse_feature.
  destruct cfg as [shp dt | dt]; destruct (ex !! key) as [f|];
    try destruct (Tfrecords.feature_values dt f); try case_decide;
    intros [= <-]; reflexivity.
Qed.

(** The element types of [feature_spec], overwritten by the types the
    twelve tensor fields are decoded at, are the record schema. *)
Lemma schema_of_feature_spec :
  <["human_individual_masks" := (dense, DT_INT32)]>
    (<["human_pixel_masks" := (dense, DT_INT32)]>
       (foldl (λ kinds key, <[key := (dense, DT_DOUBLE)]> kinds)
          (config_kind <$> Tfrecords.feature_spec)
          (Tfrecords.goes_bands ++ ["brightness_temperature_difference"%string])))
  = record_schema.
Proof. apply (bool_decide_unpack _). vm_compute. exact I. Qed.

Ltac solve_elem_of_list :=
  repeat first [apply list_elem_of_here | apply list_elem_of_further].

Lemma feature_spec_tensor_fields (key : string) (out_type : dtype) :
  (key, out_type) ∈ tensor_fields →
  Tfrecords.feature_spec !! key = Some (Tfrecords.FixedLenFeature [] DT_STRING).
Proof.
  unfold tensor_fields. cbn [fmap list_fmap Tfrecords.goes_bands app].
  rewrite !elem_of_cons, elem_of_nil.
  intros H; repeat (destruct H as [[= -> _] | H]; [reflexivity |]); done.
Qed.

Lemma tensor_fields_double (key : string) :
  key ∈ Tfrecords.goes_bands ++ ["brightness_temperature_difference"%string] →
  (key, DT_DOUBLE) ∈ tensor_fields.
Proof.
  unfold tensor_fields. cbn [fmap list_fmap Tfrecords.goes_bands app].
  intros H. rewrite !elem_of_cons, elem_of_nil in H.
  repeat (destruct H as [-> | H]; [solve_elem_of_list |]); done.
Qed.

(** The 22 keys of [feature_spec], by the type of their values. *)
Lemma feature_spec_cases (key : string) (cfg : Tfrecords.feature_config) :
  Tfrecords.feature_spec !! key = Some cfg →
  (cfg = Tfrecords.FixedLenFeature [] DT_STRING
   ∧ (key = "projection_wkt"%string ∨ ∃ out_type, (key, out_type) ∈ tensor_fields))
  ∨ (cfg = Tfrecords.FixedLenFeature [] DT_INT64
     ∧ key ∈ ["n_times_before"; "n_times_after"; "timestamp"]%string)
  ∨ (cfg = Tfrecords.FixedLenFeature [] DT_FLOAT
     ∧ key ∈ ["col_min"; "row_min"; "col_size"; "row_size"]%string)
  ∨ (cfg = Tfrecords.VarLenFeature DT_INT64 ∧ key = "satellite_scan_starts"%string).
Proof.
  unfold Tfrecords.feature_spec, Tfrecords.dict_update, dict_of, tensor_fields.
  cbn [fmap list_fmap Tfrecords.goes_bands app foldl fst snd].
  rewrite lookup_union_Some_raw. intros [H | [_ H]].
  - repeat (apply lookup_insert_Some in H as [[<- <-] | [_ H]];
      [ first [ left; split; [reflexivity |];
                  first [ by left | right; eexists; solve_elem_of_list ]
              | right; left; split; [reflexivity | solve_elem_of_list]
              | right; right; left; split; [reflexivity | solve_elem_of_list]
              | right; right; right; by split ] |]).
    by rewrite lookup_empty in H.
  - repeat (apply lookup_insert_Some in H as [[<- <-] | [_ H]];
      [ left; split; [reflexivity |]; right; eexists; solve_elem_of_list |]).
    by rewrite lookup_empty in H.
Qed.

Section parse_example.
Context `{TF : Tfrecords.TensorFlow}.

Lemma parse_single_example_Ok (serialized : string)
    (spec : gmap string Tfrecords.feature_config) (d : gmap string tensor) :
  Tfrecords.parse_single_example serialized spec = Ok d ↔
  ∃ ex, Tfrecords.decode_example serialized = Ok ex
        ∧ ∀ key, Ok <$> d !! key = Tfrecords.parse_feature ex key <$> spec !! key.
Proof.
  unfold Tfrecords.parse_single_example.
  destruct (Tfrecords.decode_example serialized) as [ex|e]; cbn [mbind result_bind].
  - rewrite collect_Ok. split.
    + intros Heq. exists ex. split; [done |]. intros key.
      apply (f_equal (λ m, m !! key)) in Heq.
      rewrite map_lookup_imap, lookup_fmap in Heq. rewrite <- Heq.
      by destruct (spec !! key).
    + intros (ex' & [= <-] & Hkeys). apply map_eq. intros key.
      rewrite map_lookup_imap, lookup_fmap, Hkeys. by destruct (spec !! key).
  - split; [done |]. by intros (ex & ? & _).
Qed.

Lemma parse_single_example_kinds (serialized : string)
    (spec : gmap string Tfrecords.feature_config) (d : gmap string tensor) :
  Tfrecords.parse_single_example serialized spec = Ok d →
  tensor_kind <$> d = config_kind <$> spec.
Proof.
  intros (ex & _ & Hkeys)%parse_single_example_Ok.
  apply map_eq. intros key. rewrite !lookup_fmap. specialize (Hkeys key).
  destruct (d !! key) as [t|], (spec !! key) as [cfg|]; simplify_eq/=; [| done].
  f_equal. by eapply parse_feature_kind.
Qed.

Lemma reparse_Ok (key : string) (out_type : dtype) (features features' : gmap string tensor) :
  Tfrecords.reparse key out_type features = Ok features' ↔
  ∃ bytes a, features !! key = Some (Dense DT_STRING (scalar bytes))
             ∧ Tfrecords.decode_tensor_proto bytes out_type = Ok a
             ∧ features' = <[key := Dense out_type a]> features.
Proof.
  unfold Tfrecords.reparse, getitem, Tfrecords.parse_tensor. split.
  - destruct (features !! key) as [[dt [shp d] | dt v]|]; try done.
    cbn [mbind result_bind].
    destruct dt; try done. destruct shp; [| done].
    destruct d as [|bytes [|? ?]]; try done.
    destruct (Tfrecords.decode_tensor_proto bytes out_type) as [a|e] eqn:Hdec; [| done].
    intros [= <-]. by exists bytes, a.
  - intros (bytes & a & -> & Hdec & ->). cbn. by rewrite Hdec.
Qed.

Lemma reparse_kinds (key : string) (out_type : dtype) (features features' : gmap string tensor) :
  Tfrecords.reparse key out_type features = Ok features' →
  tensor_kind <$> features' = <[key := (dense, out_type)]> (tensor_kind <$> features).
Proof.
  intros (bytes & a & _ & _ & ->)%reparse_Ok. by rewrite fmap_insert.
Qed.

Lemma reparse_each_kinds (keys : list string) (out_type : dtype)
    (features features' : gmap string tensor) :
  Tfrecords.reparse_each keys out_type features = Ok features' →
  tensor_kind <$> features'
  = foldl (λ kinds key, <[key := (dense, out_type)]> kinds) (tensor_kind <$> features) keys.
Proof.
  revert features. induction keys as [|key keys IH]; intros features; simpl.
  - by intros [= <-].
  - destruct (Tfrecords.reparse key out_type features) as [f1|e] eqn:H1; [| done].
    cbn [mbind result_bind]. intros Hrest.
    rewrite (IH _ Hrest). by rewrite (reparse_kinds _ _ _ _ H1).
Qed.

Lemma parse_example_kinds (serialized : string) (d : gmap string tensor) :
  Tfrecords.parse_example serialized = Ok d → tensor_kind <$> d = record_schema.
Proof.
  unfold Tfrecords.parse_example.
  destruct (Tfrecords.parse_single_example _ _) as [d0|e] eqn:H0; [| done].
  cbn [mbind result_bind].
  destruct (Tfrecords.reparse_each _ _ d0) as [d1|e] eqn:H1; [| done].
  cbn [mbind result_bind].
  destruct (Tfrecords.reparse _ _ d1) as [d2|e] eqn:H2; [| done].
  cbn [mbind result_bind].
  destruct (Tfrecords.reparse _ _ d2) as [d3|e] eqn:H3; [| done].
  cbn [mbind result_bind]. intros [= <-].
  rewrite (reparse_kinds _ _ _ _ H3), (reparse_kinds _ _ _ _ H2),
    (reparse_each_kinds _ _ _ _ H1), (parse_single_example_kinds _ _ _ H0).
  apply schema_of_feature_spec.
Qed.

Lemma parse_single_example_total (serialized : string)
    (spec : gmap string Tfrecords.feature_config) (ex : gmap string Tfrecords.feature) :
  Tfrecords.decode_example serialized = Ok ex →
  (∀ key cfg, spec !! key = Some cfg → ∃ t, Tfrecords.parse_feature ex key cfg = Ok t) →
  ∃ d, Tfrecords.parse_single_example serialized spec = Ok d.
Proof.
  intros Hdec Hall.
  exists (omap Tfrecords.value_of
            (map_imap (λ key cfg, Some (Tfrecords.parse_feature ex key cfg)) spec)).
  apply parse_single_example_Ok. exists ex. split; [done |]. intros key.
  rewrite lookup_omap, map_lookup_imap.
  destruct (spec !! key) as [cfg|] eqn:Hkey; [| done]. simpl.
  by destruct (Hall key cfg Hkey) as [t ->].
Qed.

Lemma reparse_each_total (keys : list string) (out_type : dtype)
    (features : gmap string tensor) :
  NoDup keys →
  (∀ key, key ∈ keys →
     ∃ bytes a, features !! key = Some (Dense DT_STRING (scalar bytes))
                ∧ Tfrecords.decode_tensor_proto bytes out_type = Ok a) →
  ∃ features', Tfrecords.reparse_each keys out_type features = Ok features'
               ∧ ∀ key, key ∉ keys → features' !! key = features !! key.
Proof.
  intros Hnd. revert features.
  induction Hnd as [|key keys Hnotin Hnd IH]; intros features Hall; simpl.
  - by exists features.
  - destruct (Hall key) as (bytes & a & Hkey & Hdec); [by left |].
    assert (H1 : Tfrecords.reparse key out_type features
                 = Ok (<[key := Dense out_type a]> features))
      by (apply reparse_Ok; by exists bytes, a).
    rewrite H1. cbn [mbind result_bind].
    destruct (IH (<[key := Dense out_type a]> features)) as (f' & Hf' & Hother).
    { intros key' Hin. rewrite lookup_insert_ne by (intros ->; done).
      apply Hall. by right. }
    exists f'. split; [done |]. intros key' Hnot.
    rewrite Hother by (intros Hin; apply Hnot; by right).
    apply lookup_insert_ne. intros ->. apply Hnot. by left.
Qed.

Lemma parse_example_total (serialized : string) :
  well_formed_record serialized → ∃ d, Tfrecords.parse_example serialized = Ok d.
Proof.
  intros (ex & Hdec & Htensor & [wkt Hwkt] & Hint & Hfloat & Hstarts).
  destruct (parse_single_example_total serialized Tfrecords.feature_spec ex Hdec)
    as [d0 H0].
  { intros key cfg Hcfg. unfold Tfrecords.parse_feature.
    apply feature_spec_cases in Hcfg
      as [[-> [-> | [out_type Hk]]] | [[-> Hk] | [[-> Hk] | [-> ->]]]].
    - rewrite Hwkt. eauto.
    - destruct (Htensor key out_type Hk) as (bytes & a & -> & _). eauto.
    - destruct (Hint key Hk) as [n ->]. eauto.
    - destruct (Hfloat key Hk) as [x ->]. eauto.
    - destruct Hstarts as [-> | [starts ->]]; eauto. }
  assert (Hd0 : ∀ key out_type, (key, out_type) ∈ tensor_fields →
            ∃ bytes a, d0 !! key = Some (Dense DT_STRING (scalar bytes))
                       ∧ Tfrecords.decode_tensor_proto bytes out_type = Ok a).
  { intros key out_type Hk.
    destruct (Htensor key out_type Hk) as (bytes & a & Hex & Hdecode).
    exists bytes, a. split; [| done].
    apply parse_single_example_Ok in H0 as (ex' & Hdec' & Hkeys).
    assert (ex' = ex) as -> by congruence.
    specialize (Hkeys key). rewrite (feature_spec_tensor_fields key out_type Hk) in Hkeys.
    unfold Tfrecords.parse_feature in Hkeys. rewrite Hex in Hkeys. cbn in Hkeys.
    destruct (d0 !! key); simplify_eq/=. done. }
  unfold Tfrecords.parse_example. rewrite H0. cbn [mbind result_bind].
  destruct (reparse_each_total
              (Tfrecords.goes_bands ++ ["brightness_temperature_difference"%string])
              DT_DOUBLE d0) as (d1 & H1 & Hother1).
  { apply (bool_decide_unpack _). by vm_compute. }
  { intros key Hk. apply (Hd0 key DT_DOUBLE). by apply tensor_fields_double. }
  rewrite H1. cbn [mbind result_bind].
  destruct (Hd0 "human_pixel_masks"%string DT_INT32) as (b2 & a2 & Hk2 & Hdec2);
    [unfold tensor_fields; cbn [fmap list_fmap Tfrecords.goes_bands app];
     solve_elem_of_list |].
  destruct (Hd0 "human_individual_masks"%string DT_INT32) as (b3 & a3 & Hk3 & Hdec3);
    [unfold tensor_fields; cbn [fmap list_fmap Tfrecords.goes_bands app];
     solve_elem_of_list |].
  rewrite <- Hother1 in Hk2, Hk3
    by (apply (bool_decide_unpack _); by vm_compute).
  assert (H2 : Tfrecords.reparse "human_pixel_masks" DT_INT32 d1
               = Ok (<["human_pixel_masks"%string := Dense DT_INT32 a2]> d1))
    by (apply reparse_Ok; by exists b2, a2).
  rewrite H2. cbn [mbind result_bind].
  assert (H3 : Tfrecords.reparse "human_individual_masks" DT_INT32
                 (<["human_pixel_masks"%string := Dense DT_INT32 a2]> d1)
               = Ok (<["human_individual_masks"%string := Dense DT_INT32 a3]>
                       (<["human_pixel_masks"%string := Dense DT_INT32 a2]> d1))).
  { apply reparse_Ok. exists b3, a3. by rewrite lookup_insert_ne. }
  rewrite H3. cbn [mbind result_bind]. eauto.
Qed.

End parse_example.

(** ** The visualization loop *)

Lemma wrap64_nonzero (z : Z) : wrap64 z ≠ 0%Z → z ≠ 0%Z.
Proof. intros H ->. by apply H. Qed.

Lemma Zsum_zeros (l : list Z) : Forall (λ z, z = 0%Z) l → Zsum l = 0%Z.
Proof. induction 1 as [|z l -> _ IH]; [done |]. simpl. by rewrite IH. Qed.

Lemma squeeze_last_sum (t flat : tensor) :
  Tfrecords.squeeze_last t = Ok flat →
  Tfrecords.sum_is_zero flat = Tfrecords.sum_is_zero t.
Proof.
  destruct t as [dt a | dt v]; [| done]. intros Hflat.
  destruct dt; try done; simpl in Hflat;
    (destruct (reverse _) as [|[|[|?]] outer] in Hflat; try done);
    by injection Hflat as <-.
Qed.

Lemma imshow_Ok (X Y : tensor) : Tfrecords.imshow X = Ok Y → Y = X.
Proof.
  unfold Tfrecords.imshow. intros H.
  repeat (case_match; try done); by simplify_eq.
Qed.

(** What one pass through the body can do: leave the state alone and go
    on or raise, or show one figure of an example whose mask does not sum
    to zero. *)
Lemma loop_body_cases (features : gmap string tensor) (st st' : Tfrecords.loop_state)
    (o : result Tfrecords.signal) :
  Tfrecords.loop_body features st = (st', o) →
  (st' = st
   ∧ ((o = Ok Tfrecords.Continue
       ∧ ∃ mask, features !! "human_pixel_masks" = Some mask
                 ∧ Tfrecords.sum_is_zero mask = Ok true)
      ∨ ∃ e, o = Raise e))
  ∨ (∃ fig mask,
       features !! "human_pixel_masks" = Some mask
       ∧ Tfrecords.sum_is_zero mask = Ok false
       ∧ nonzero_mask fig
       ∧ st' = Tfrecords.mk_loop_state (S (Tfrecords.count st)) (Tfrecords.shown st ++ [fig])
       ∧ o = Ok (if decide (10 ≤ S (Tfrecords.count st))%nat
                 then Tfrecords.Break else Tfrecords.Continue)).
Proof.
  unfold Tfrecords.loop_body, getitem.
  destruct (features !! "human_pixel_masks") as [mask|]; cbn [mbind result_bind];
    [| intros [= <- <-]; left; eauto].
  destruct (Tfrecords.sum_is_zero mask) as [[|]|e] eqn:Hsum; cbn [mbind result_bind].
  - intros [= <- <-]. left. split; [done |]. left. eauto.
  - repeat (case_result; [| intros [= <- <-]; left; eauto]).
    intros [= <- <-]. right. do 2 eexists. split_and!; try done.
    unfold nonzero_mask. simpl.
    match goal with H : Tfrecords.imshow ?flat = Ok ?right |- _ =>
      apply imshow_Ok in H as -> end.
    by erewrite squeeze_last_sum.
  - intros [= <- <-]. left. eauto.
Qed.

Lemma loop_body_invariant (features : gmap string tensor) (st st' : Tfrecords.loop_state)
    (o : result Tfrecords.signal) :
  (Tfrecords.count st < 10)%nat →
  loop_invariant st →
  Tfrecords.loop_body features st = (st', o) →
  loop_invariant st' ∧ (o = Ok Tfrecords.Continue → (Tfrecords.count st' < 10)%nat).
Proof.
  intros Hlt (Hle & Hlen & Hshown) Hbody.
  apply loop_body_cases in Hbody
    as [[-> _] | (fig & mask & _ & _ & Hfig & -> & ->)]; [done |].
  split.
  - unfold loop_invariant. simpl. split_and!; [lia | |].
    + rewrite length_app. simpl. lia.
    + apply Forall_app. split; [done |]. by constructor.
  - simpl. case_decide; [done | lia].
Qed.

(** The states of a run: every iteration is entered with [count < 10],
    and every state of the run satisfies the invariant. *)
Lemma visualization_loop_states (iterator : list (result (gmap string tensor)))
    (st : Tfrecords.loop_state) :
  (Tfrecords.count st < 10)%nat →
  loop_invariant st →
  ∃ heads final,
    (Tfrecords.visualization_loop iterator st).1 = heads ++ [final]
    ∧ Forall (λ s, (Tfrecords.count s < 10)%nat) heads
    ∧ Forall loop_invariant (heads ++ [final]).
Proof.
  revert st. induction iterator as [|[features|e] rest IH]; intros st Hlt Hinv.
  - exists [], st. simpl. split_and!; [done | by apply Forall_nil | by apply Forall_singleton].
  - simpl. destruct (Tfrecords.loop_body features st) as [st' o] eqn:Hbody.
    destruct (loop_body_invariant features st st' o Hlt Hinv Hbody) as [Hinv' Hlt'].
    destruct o as [[|]|e].
    + destruct (IH st' (Hlt' eq_refl) Hinv') as (heads & final & Heq & Hheads & Hall).
      destruct (Tfrecords.visualization_loop rest st') as [states outcome].
      simpl in *. exists (st :: heads), final. rewrite Heq.
      split_and!; [done | by apply Forall_cons_2 | by apply Forall_cons_2].
    + exists [st], st'. simpl. split_and!; [done | by apply Forall_singleton | by rewrite !Forall_cons, Forall_nil].
    + exists [st], st'. simpl. split_and!; [done | by apply Forall_singleton | by rewrite !Forall_cons, Forall_nil].
  - exists [], st. simpl. split_and!; [done | by apply Forall_nil | by apply Forall_singleton].
Qed.

(** An error of the iterator, reached by the loop, ends the loop with that
    error and in the state the loop was in. *)
Lemma visualization_loop_raise (before rest : list (result (gmap string tensor)))
    (e : exn) (st final : Tfrecords.loop_state) (states : list Tfrecords.loop_state) :
  Tfrecords.visualization_loop before st = (states, Ok ()) →
  last states = Some final →
  (Tfrecords.count final < 10)%nat →
  (Tfrecords.count st < 10)%nat →
  Tfrecords.visualization_loop (before ++ Raise e :: rest) st = (states, Raise e).
Proof.
  revert st states. induction before as [|[features|e'] before IH]; intros st states.
  - simpl. by intros [= <-].
  - simpl. destruct (Tfrecords.loop_body features st) as [st' o] eqn:Hbody.
    destruct o as [[|]|e''].
    + destruct (Tfrecords.visualization_loop before st') as [states' outcome] eqn:Hloop.
      intros [= <- ->] Hlast Hfinal Hlt.
      assert (Hlt' : (Tfrecords.count st' < 10)%nat).
      { apply loop_body_cases in Hbody
          as [[-> _] | (fig & mask & _ & _ & _ & -> & Ho)]; [done |].
        simpl. case_decide; [done | lia]. }
      assert (Hlast' : last states' = Some final).
      { destruct states' as [|s states']; [| by rewrite last_cons_cons in Hlast].
        exfalso. clear -Hloop. destruct before as [|[?|?] ?]; simpl in Hloop;
          repeat case_match; simplify_eq. }
      by rewrite (IH st' states' Hloop Hlast' Hfinal Hlt').
    + intros [= <-] [= <-] Hfinal Hlt. exfalso.
      apply loop_body_cases in Hbody
        as [[-> [[? _] | [? ?]]] | (fig & mask & _ & _ & _ & -> & Ho)]; try done.
      simpl in *. case_decide; [lia | done].
    + done.
  - done.
Qed.

(** ** Errors *)

Lemma collect_error {V} (m : gmap string (result V)) (key : string) (e : exn) :
  m !! key = Some (Raise e) → ∃ e', Tfrecords.collect m = Raise e'.
Proof.
  intros Hkey. destruct (Tfrecords.collect m) as [m'|e'] eqn:Hc; [| by exists e'].
  apply collect_Ok in Hc as ->. rewrite lookup_fmap in Hkey.
  by destruct (m' !! key).
Qed.

Section errors.
Context `{TF : Tfrecords.TensorFlow} `{FS : Netcdf.FileSystem}.

Lemma parse_example_Raise (serialized : string) (e : exn) :
  Tfrecords.parse_example serialized = Raise e ↔
  Tfrecords.parse_single_example serialized Tfrecords.feature_spec = Raise e
  ∨ ∃ d0, Tfrecords.parse_single_example serialized Tfrecords.feature_spec = Ok d0
    ∧ (Tfrecords.reparse_each
         (Tfrecords.goes_bands ++ ["brightness_temperature_difference"%string])
         DT_DOUBLE d0 = Raise e
       ∨ ∃ d1, Tfrecords.reparse_each
                 (Tfrecords.goes_bands ++ ["brightness_temperature_difference"%string])
                 DT_DOUBLE d0 = Ok d1
         ∧ (Tfrecords.reparse "human_pixel_masks" DT_INT32 d1 = Raise e
            ∨ ∃ d2, Tfrecords.reparse "human_pixel_masks" DT_INT32 d1 = Ok d2
              ∧ Tfrecords.reparse "human_individual_masks" DT_INT32 d2 = Raise e)).
Proof.
  unfold Tfrecords.parse_example. split.
  - destruct (Tfrecords.parse_single_example _ _) as [d0|e0]; cbn [mbind result_bind];
      [| by left].
    intros H. right. exists d0. split; [done |].
    destruct (Tfrecords.reparse_each _ _ d0) as [d1|e1]; cbn [mbind result_bind] in H;
      [| by left].
    right. exists d1. split; [done |].
    destruct (Tfrecords.reparse _ _ d1) as [d2|e2]; cbn [mbind result_bind] in H;
      [| by left].
    right. exists d2. split; [done |].
    by destruct (Tfrecords.reparse _ _ d2).
  - intros [H | (d0 & H0 & [H | (d1 & H1 & [H | (d2 & H2 & H)])])].
    + by rewrite H.
    + rewrite H0. cbn [mbind result_bind]. by rewrite H.
    + rewrite H0. cbn [mbind result_bind]. rewrite H1. cbn [mbind result_bind].
      by rewrite H.
    + rewrite H0. cbn [mbind result_bind]. rewrite H1. cbn [mbind result_bind].
      rewrite H2. cbn [mbind result_bind]. by rewrite H.
Qed.

Lemma reparse_Raise (key bytes : string) (out_type : dtype)
    (features : gmap string tensor) (e : exn) :
  features !! key = Some (Dense DT_STRING (scalar bytes)) →
  Tfrecords.decode_tensor_proto bytes out_type = Raise e →
  Tfrecords.reparse key out_type features = Raise e.
Proof.
  intros Hkey Hdec. unfold Tfrecords.reparse, getitem. rewrite Hkey. cbn.
  by rewrite Hdec.
Qed.

Lemma reparse_each_Raise (before after : list string) (key : string) (out_type : dtype)
    (features features' : gmap string tensor) (e : exn) :
  Tfrecords.reparse_each before out_type features = Ok features' →
  Tfrecords.reparse key out_type features' = Raise e →
  Tfrecords.reparse_each (before ++ key :: after) out_type features = Raise e.
Proof.
  revert features. induction before as [|k before IH]; intros features; simpl.
  - intros [= ->] ->. done.
  - destruct (Tfrecords.reparse k out_type features) as [f1|e1]; [| done].
    cbn [mbind result_bind]. apply IH.
Qed.

Lemma load_bands_raise (before rest : list (Z * string)) (band_id : Z) (path : string)
    (bts bts' : gmap Z (ndarray R)) (e : exn) :
  Netcdf.load_bands before bts = (bts', Ok ()) →
  Netcdf.open_dataset path ≫= Netcdf.brightness_temperature = Raise e →
  Netcdf.load_bands (before ++ (band_id, path) :: rest) bts = (bts', Raise e).
Proof.
  revert bts. induction before as [|[band p] before IH]; intros bts; simpl.
  - intros [= ->] ->. done.
  - destruct (Netcdf.open_dataset p ≫= Netcdf.brightness_temperature) as [bt|e1]; [| done].
    apply IH.
Qed.

Lemma load_bands_keys (items : list (Z * string)) (bts bts' : gmap Z (ndarray R))
    (o : result ()) (band_id : Z) :
  Netcdf.load_bands items bts = (bts', o) →
  band_id ∉ items.*1 → bts' !! band_id = bts !! band_id.
Proof.
  revert bts. induction items as [|[band p] items IH]; intros bts; simpl.
  - by intros [= ->].
  - destruct (Netcdf.open_dataset p ≫= Netcdf.brightness_temperature) as [bt|e1].
    + intros Hload Hnot. rewrite (IH _ Hload) by (intros ?; apply Hnot; by right).
      apply lookup_insert_ne. intros ->. apply Hnot. by left.
    + by intros [= ->].
Qed.

End errors.

(** C7, amended.  For every serialized example that contains all required
    fields, each with one value of its kind and, for the twelve tensor
    fields, a byte string that holds a tensor of the declared element type,
    parse_example returns a dictionary with exactly the keys of the record
    schema: the nine bands and brightness_temperature_difference as float64
    tensors, the two masks as int32 tensors, n_times_before, n_times_after
    and timestamp as int64, projection_wkt as string, col_min, row_min,
    col_size and row_size as float32, and satellite_scan_starts as a sparse
    int64 tensor. *)
Theorem parse_example_schema `{TF : Tfrecords.TensorFlow} (serialized : string) :
  well_formed_record serialized →
  ∃ d, Tfrecords.parse_example serialized = Ok d
       ∧ tensor_kind <$> d = record_schema
       ∧ dom d = dom record_schema.
Proof.
  intros Hfields. destruct (parse_example_total serialized Hfields) as [d Hd].
  exists d. split; [done |].
  pose proof (parse_example_kinds serialized d Hd) as Hkinds.
  split; [done |]. by rewrite <- Hkinds, dom_fmap_L.
Qed.

Lemma sample_record_well_formed :
  well_formed_record (TF:=sample_tensorflow) "contrail".
Proof.
  exists (sample_example "M1"). split; [reflexivity |]. split_and!.
  - intros key out_type Hk. unfold tensor_fields in Hk.
    cbn [fmap list_fmap Tfrecords.goes_bands app] in Hk.
    rewrite !elem_of_cons, elem_of_nil in Hk.
    repeat (destruct Hk as [[= -> ->] | Hk]; [do 2 eexists; split; reflexivity |]).
    done.
  - eexists. reflexivity.
  - intros key Hk. rewrite !elem_of_cons, elem_of_nil in Hk.
    repeat (destruct Hk as [-> | Hk]; [eexists; reflexivity |]). done.
  - intros key Hk. rewrite !elem_of_cons, elem_of_nil in Hk.
    repeat (destruct Hk as [-> | Hk]; [eexists; reflexivity |]). done.
  - right. eexists. reflexivity.
Defined.

Lemma parse_example_schema_witness :
  ∃ d, Tfrecords.parse_example (TF:=sample_tensorflow) "contrail" = Ok d
       ∧ tensor_kind <$> d = record_schema
       ∧ dom d = dom record_schema.
Proof.
  apply (parse_example_schema (TF:=sample_tensorflow) "contrail").
  exact sample_record_well_formed.
Defined.

(** C7, as stated, fails: the record "garbled" contains every field of
    the schema, and tf.io.parse_single_example accepts it, but its masks
    are byte strings that hold no tensor, so parse_example raises and
    returns no dictionary. *)
Lemma undecodable_field_raises :
  Tfrecords.decode_example (TensorFlow:=sample_tensorflow) "garbled"
  = Ok (sample_example "XX")
  ∧ dom (sample_example "XX") = dom record_schema
  ∧ (∃ d0, Tfrecords.parse_single_example (TF:=sample_tensorflow) "garbled"
             Tfrecords.feature_spec = Ok d0)
  ∧ Tfrecords.parse_example (TF:=sample_tensorflow) "garbled"
    = Raise (InvalidArgumentError "Could not parse tensor proto").
Proof.
  split_and!.
  - reflexivity.
  - apply (bool_decide_unpack _). by vm_compute.
  - assert (H0 : (if Tfrecords.parse_single_example (TF:=sample_tensorflow) "garbled"
                        Tfrecords.feature_spec is Ok _ then true else false) = true)
      by (vm_compute; reflexivity).
    destruct (Tfrecords.parse_single_example _ _) as [d0|e]; [by exists d0 | done].
  - by vm_compute.
Qed.

(** C10.  From count = 0 the loop enters every iteration with count < 10;
    in every state of the run count <= 10, count is the number of figures
    shown and every figure shown carries a mask whose sum is not zero, so
    at most 10 figures are shown.  An example whose mask sums to zero, in
    particular one whose mask is all zero, is skipped and changes nothing;
    an example that is shown has a mask whose values do not sum to zero. *)
Theorem visualization_loop_shows_contrails `{TF : Tfrecords.TensorFlow}
    (records : list (result string)) :
  (∃ heads final,
     (Tfrecords.run_cells records).1 = heads ++ [final]
     ∧ Forall (λ st, (Tfrecords.count st < 10)%nat) heads
     ∧ Forall loop_invariant (heads ++ [final])
     ∧ (length (Tfrecords.shown final) ≤ 10)%nat)
  ∧ (∀ features st mask,
       features !! "human_pixel_masks" = Some mask →
       Tfrecords.sum_is_zero mask = Ok true →
       Tfrecords.loop_body features st = (st, Ok Tfrecords.Continue))
  ∧ (∀ features st a,
       features !! "human_pixel_masks" = Some (Dense DT_INT32 a) →
       Forall (λ z, z = 0%Z) (data a) →
       Tfrecords.loop_body features st = (st, Ok Tfrecords.Continue))
  ∧ (∀ features st st' o,
       Tfrecords.loop_body features st = (st', o) →
       Tfrecords.shown st' ≠ Tfrecords.shown st →
       ∃ mask, features !! "human_pixel_masks" = Some mask
               ∧ Tfrecords.sum_is_zero mask = Ok false
               ∧ ∀ a, mask = Dense DT_INT32 a → Zsum (data a) ≠ 0%Z).
Proof.
  split_and!.
  - destruct (visualization_loop_states (Tfrecords.dataset records)
                (Tfrecords.mk_loop_state 0 []))
      as (heads & final & Heq & Hheads & Hall).
    { simpl. lia. }
    { unfold loop_invariant. simpl. split_and!; [lia | done | by apply Forall_nil]. }
    exists heads, final. split_and!; try done.
    apply Forall_app in Hall as [_ Hfinal].
    apply Forall_singleton in Hfinal as (Hle & Hlen & _). lia.
  - intros features st mask Hmask Hzero.
    unfold Tfrecords.loop_body, getitem. rewrite Hmask. cbn [mbind result_bind].
    by rewrite Hzero.
  - intros features st a Hmask Hzero.
    unfold Tfrecords.loop_body, getitem. rewrite Hmask. cbn [mbind result_bind].
    unfold Tfrecords.sum_is_zero. rewrite (Zsum_zeros _ Hzero).
    by rewrite bool_decide_eq_true_2.
  - intros features st st' o Hbody Hshown.
    apply loop_body_cases in Hbody
      as [[-> _] | (fig & mask & Hmask & Hsum & _ & _ & _)]; [done |].
    exists mask. split_and!; [done | done |].
    intros a ->. simpl in Hsum. injection Hsum as Hsum.
    apply bool_decide_eq_false in Hsum. by apply wrap64_nonzero.
Qed.

Lemma visualization_loop_shows_contrails_witness :
  ∃ heads final,
    (Tfrecords.run_cells (TF:=sample_tensorflow)
       (replicate 12 (Ok "contrail"%string) ++ [Ok "clear"%string])).1
    = heads ++ [final]
    ∧ Forall (λ st, (Tfrecords.count st < 10)%nat) heads
    ∧ Forall loop_invariant (heads ++ [final])
    ∧ (length (Tfrecords.shown final) ≤ 10)%nat.
Proof.
  apply (visualization_loop_shows_contrails (TF:=sample_tensorflow)
           (replicate 12 (Ok "contrail"%string) ++ [Ok "clear"%string])).
Defined.

(** C8, as stated, fails in its last part: when a record cannot be decoded
    after an example with contrails, the error ends the run but the figure
    of the earlier example has been shown; when the file of band 15 cannot
    be read, the error ends the cell but the dictionary holds bands 11 and
    14. *)
Lemma failed_run_keeps_earlier_results :
  (∃ states final e,
     Tfrecords.run_cells (TF:=sample_tensorflow) [Ok "contrail"; Ok "corrupt"]%string
     = (states, Raise e)
     ∧ last states = Some final
     ∧ length (Tfrecords.shown final) = 1%nat)
  ∧ (∃ bts e,
       Netcdf.load_bands (FS:=sample_filesystem) Netcdf.paths ∅ = (bts, Raise e)
       ∧ dom bts = {[11%Z; 14%Z]}).
Proof.
  split.
  - do 3 eexists. split; [vm_compute; reflexivity |]. split; reflexivity.
  - do 2 eexists. split; [vm_compute; reflexivity |].
    apply (bool_decide_unpack _). by vm_compute.
Qed.

(** C8, amended.  No operation catches an error; an error e of an
    underlying operation is the outcome of everything that encloses it.  A
    record that does not decode, a required field that is missing, a
    tensor field (a band, the temperature difference or one of the two
    masks) that does not decode make parse_example raise (the error of the
    decoder, unchanged) and return no dictionary; an error of the
    record reader or of parse_example is the element of the dataset and,
    once the loop reaches it, the outcome of the loop, which shows nothing
    for that record and is left in the state it had; an error of the read
    of a band file is the outcome of the loading cell, which writes no
    entry for that band, and no composite is computed.  What was shown or
    loaded before the failure remains. *)
Theorem errors_propagate `{TF : Tfrecords.TensorFlow} `{FS : Netcdf.FileSystem} (e : exn) :
  (∀ serialized,
     Tfrecords.decode_example serialized = Raise e →
     Tfrecords.parse_example serialized = Raise e)
  ∧ (∀ serialized ex key shp dt,
       Tfrecords.decode_example serialized = Ok ex →
       Tfrecords.feature_spec !! key = Some (Tfrecords.FixedLenFeature shp dt) →
       ex !! key = None →
       ∃ e', Tfrecords.parse_example serialized = Raise e')
  ∧ (∀ serialized,
       Tfrecords.parse_single_example serialized Tfrecords.feature_spec = Raise e →
       Tfrecords.parse_example serialized = Raise e)
  ∧ (∀ key bytes out_type features,
       features !! key = Some (Dense DT_STRING (scalar bytes)) →
       Tfrecords.decode_tensor_proto bytes out_type = Raise e →
       Tfrecords.reparse key out_type features = Raise e)
  ∧ (∀ serialized d0 before key after features,
       Tfrecords.parse_single_example serialized Tfrecords.feature_spec = Ok d0 →
       Tfrecords.goes_bands ++ ["brightness_temperature_difference"%string]
       = before ++ key :: after →
       Tfrecords.reparse_each before DT_DOUBLE d0 = Ok features →
       Tfrecords.reparse key DT_DOUBLE features = Raise e →
       Tfrecords.parse_example serialized = Raise e)
  ∧ (∀ serialized d0 d1,
       Tfrecords.parse_single_example serialized Tfrecords.feature_spec = Ok d0 →
       Tfrecords.reparse_each
         (Tfrecords.goes_bands ++ ["brightness_temperature_difference"%string])
         DT_DOUBLE d0 = Ok d1 →
       Tfrecords.reparse "human_pixel_masks" DT_INT32 d1 = Raise e →
       Tfrecords.parse_example serialized = Raise e)
  ∧ (∀ serialized d0 d1 d2,
       Tfrecords.parse_single_example serialized Tfrecords.feature_spec = Ok d0 →
       Tfrecords.reparse_each
         (Tfrecords.goes_bands ++ ["brightness_temperature_difference"%string])
         DT_DOUBLE d0 = Ok d1 →
       Tfrecords.reparse "human_pixel_masks" DT_INT32 d1 = Ok d2 →
       Tfrecords.reparse "human_individual_masks" DT_INT32 d2 = Raise e →
       Tfrecords.parse_example serialized = Raise e)
  ∧ (∀ records i,
       records !! i = Some (Raise e) →
       Tfrecords.dataset records !! i = Some (Raise e))
  ∧ (∀ records i serialized,
       records !! i = Some (Ok serialized) →
       Tfrecords.parse_example serialized = Raise e →
       Tfrecords.dataset records !! i = Some (Raise e))
  ∧ (∀ before rest st final states,
       Tfrecords.visualization_loop before st = (states, Ok ()) →
       last states = Some final →
       (Tfrecords.count final < 10)%nat →
       (Tfrecords.count st < 10)%nat →
       Tfrecords.visualization_loop (before ++ Raise e :: rest) st = (states, Raise e))
  ∧ (∀ path,
       Netcdf.open_dataset path = Raise e →
       Netcdf.open_dataset path ≫= Netcdf.brightness_temperature = Raise e)
  ∧ (∀ before rest band_id path bts bts',
       Netcdf.load_bands before bts = (bts', Ok ()) →
       Netcdf.open_dataset path ≫= Netcdf.brightness_temperature = Raise e →
       Netcdf.load_bands (before ++ (band_id, path) :: rest) bts = (bts', Raise e)
       ∧ (band_id ∉ before.*1 → bts' !! band_id = bts !! band_id))
  ∧ (∀ bts, Netcdf.load_bands Netcdf.paths ∅ = (bts, Raise e) → Netcdf.run_cells = Raise e).
Proof.
  split_and!.
  - intros serialized Hdec. apply parse_example_Raise. left.
    unfold Tfrecords.parse_single_example. by rewrite Hdec.
  - intros serialized ex key shp dt Hdec Hspec Hmissing.
    destruct (collect_error
      (map_imap (λ key cfg, Some (Tfrecords.parse_feature ex key cfg)) Tfrecords.feature_spec)
      key (InvalidArgumentError ("feature is required but could not be found: " +:+ key)))
      as [e' He'].
    { rewrite map_lookup_imap, Hspec. simpl. by rewrite Hmissing. }
    exists e'. apply parse_example_Raise. left.
    unfold Tfrecords.parse_single_example. rewrite Hdec. exact He'.
  - intros serialized H. apply parse_example_Raise. by left.
  - intros key bytes out_type features. apply reparse_Raise.
  - intros serialized d0 before key after features H0 Hkeys Hbefore Hkey.
    apply parse_example_Raise. right. exists d0. split; [done |]. left.
    rewrite Hkeys. by eapply reparse_each_Raise.
  - intros serialized d0 d1 H0 H1 Hmask.
    apply parse_example_Raise. right. exists d0. split; [done |]. right.
    exists d1. split; [done |]. by left.
  - intros serialized d0 d1 d2 H0 H1 H2 Hmask.
    apply parse_example_Raise. right. exists d0. split; [done |]. right.
    exists d1. split; [done |]. right. exists d2. by split.
  - intros records i Hi. unfold Tfrecords.dataset.
    by rewrite list_lookup_fmap, Hi.
  - intros records i serialized Hi Hparse. unfold Tfrecords.dataset.
    rewrite list_lookup_fmap, Hi. simpl. by rewrite Hparse.
  - intros before rest st final states. apply visualization_loop_raise.
  - intros path Hopen. by rewrite Hopen.
  - intros before rest band_id path bts bts' Hbefore Hfail. split.
    + by apply load_bands_raise.
    + intros Hnot. by eapply load_bands_keys.
  - intros bts Hload. unfold Netcdf.run_cells. by rewrite Hload.
Qed.

Lemma errors_propagate_witness :
  ∃ states,
    Tfrecords.visualization_loop
      (Tfrecords.dataset (TF:=sample_tensorflow) [Ok "clear"%string]
       ++ Raise (OSError "Connection reset by peer")
          :: Tfrecords.dataset (TF:=sample_tensorflow) [Ok "contrail"%string])
      (Tfrecords.mk_loop_state 0 [])
    = (states, Raise (OSError "Connection reset by peer")).
Proof.
  exists [Tfrecords.mk_loop_state 0 []; Tfrecords.mk_loop_state 0 []].
  apply (errors_propagate (TF:=sample_tensorflow) (FS:=sample_filesystem)
           (OSError "Connection reset by peer"))
    with (final := Tfrecords.mk_loop_state 0 []).
  - vm_compute. reflexivity.
  - reflexivity.
  - simpl. lia.
  - simpl. lia.
Defined.

(** * Further properties of the code *)

(** ** Errors and shapes of the composite *)

(** X1.  A band missing from the dictionary makes the composite raise
    KeyError with the key of the first subscript that fails, in the order
    in which false_color_image evaluates them: the 12 um band, then the
    11 um band, then (once the first difference is computed) the cloud-top
    band; keys 15, 14, 11 in the NetCDF notebook. *)
Theorem false_color_image_missing_key
    (bt : gmap string tensor) (bn : gmap Z (ndarray R)) :
  (bt !! "data_12um" = None →
   Tfrecords.false_color_image bt = Raise (KeyError "data_12um"))
  ∧ (is_Some (bt !! "data_12um") → bt !! "data_11um" = None →
     Tfrecords.false_color_image bt = Raise (KeyError "data_11um"))
  ∧ (∀ (t12 t11 : ndarray R) s,
       bt !! "data_12um" = Some (Dense DT_DOUBLE t12) →
       bt !! "data_11um" = Some (Dense DT_DOUBLE t11) →
       Np.broadcast_shapes (shape t12) (shape t11) = Some s →
       bt !! "cloud_top" = None →
       Tfrecords.false_color_image bt = Raise (KeyError "cloud_top"))
  ∧ (bn !! 15%Z = None →
     Netcdf.false_color_image bn = Raise (KeyError "15"))
  ∧ (is_Some (bn !! 15%Z) → bn !! 14%Z = None →
     Netcdf.false_color_image bn = Raise (KeyError "14"))
  ∧ (∀ t12 t11 s,
       bn !! 15%Z = Some t12 →
       bn !! 14%Z = Some t11 →
       Np.broadcast_shapes (shape t12) (shape t11) = Some s →
       bn !! 11%Z = None →
       Netcdf.false_color_image bn = Raise (KeyError "11")).
Proof.
  split_and!.
  - intros H12. unfold Tfrecords.false_color_image, getitem. by rewrite H12.
  - intros [x H12] H11. unfold Tfrecords.false_color_image, getitem.
    by rewrite H12, H11.
  - intros t12 t11 s H12 H11 Hs Hct.
    unfold Tfrecords.false_color_image, getitem, Tfrecords.tensor_subtract.
    rewrite H12, H11, Hct. cbn [mbind result_bind Tfrecords.as_real].
    unfold Np.subtract, Np.binary. by rewrite Hs.
  - intros H15. unfold Netcdf.false_color_image, getitem. by rewrite H15.
  - intros [x H15] H14. unfold Netcdf.false_color_image, getitem.
    by rewrite H15, H14.
  - intros t12 t11 s H15 H14 Hs H11.
    unfold Netcdf.false_color_image, getitem.
    rewrite H15, H14, H11. cbn [mbind result_bind].
    unfold Np.subtract, Np.binary. by rewrite Hs.
Qed.

Lemma false_color_image_missing_key_witness :
  Tfrecords.false_color_image (delete "data_11um"%string uniform_bands)
  = Raise (KeyError "data_11um")
  ∧ Netcdf.false_color_image (delete 14%Z uniform_bands_netcdf)
    = Raise (KeyError "14").
Proof.
  pose proof (false_color_image_missing_key
                (delete "data_11um"%string uniform_bands)
                (delete 14%Z uniform_bands_netcdf))
    as (_ & Ht & _ & _ & Hn & _).
  split; [apply Ht | apply Hn]; try reflexivity; by eexists.
Defined.

Lemma netcdf_composite_shapes (bn : gmap Z (ndarray R)) (t12 t11 tct : ndarray R) :
  bn !! 15%Z = Some t12 →
  bn !! 14%Z = Some t11 →
  bn !! 11%Z = Some tct →
  Netcdf.false_color_image bn
  = if decide (Np.broadcast_shapes (shape t12) (shape t11) = Some (shape t11)
               ∧ Np.broadcast_shapes (shape t11) (shape tct) = Some (shape t11))
    then
      Ok (Np.clip
            (mk_ndarray (shape t11 ++ [3%nat])
               (Np.interleave (numel (shape t11))
                  [data (Netcdf.normalize_range
                           (mk_ndarray (shape t11)
                              (zip_with Rminus (Np.broadcast_to t12 (shape t11))
                                 (Np.broadcast_to t11 (shape t11))))
                           Netcdf._TDIFF_BOUNDS);
                   data (Netcdf.normalize_range
                           (mk_ndarray (shape t11)
                              (zip_with Rminus (Np.broadcast_to t11 (shape t11))
                                 (Np.broadcast_to tct (shape t11))))
                           Netcdf._CLOUD_TOP_TDIFF_BOUNDS);
                   data (Netcdf.normalize_range t11 Netcdf._T11_BOUNDS)]))
            0 1)
    else Raise ValueError.
Proof.
  intros H15 H14 H11.
  unfold Netcdf.false_color_image, getitem. rewrite H15, H14, H11.
  cbn [mbind result_bind]. unfold Np.subtract, Np.binary.
  destruct (Np.broadcast_shapes (shape t12) (shape t11)) as [sr|] eqn:Hr;
    cbn [mbind result_bind]; [| by rewrite decide_False by (by intros [? _])].
  destruct (Np.broadcast_shapes (shape t11) (shape tct)) as [sg|] eqn:Hg;
    cbn [mbind result_bind]; [| by rewrite decide_False by (by intros [_ ?])].
  unfold Np.stack_last. cbn [shape Netcdf.normalize_range Np.elementwise].
  destruct (decide (sr = shape t11 ∧ sg = shape t11)) as [[-> ->] | Hne].
  - rewrite decide_True by (repeat constructor).
    by rewrite decide_True by done.
  - rewrite decide_False.
    + rewrite decide_False; [done |]. intros [[= ->] [= ->]]. by apply Hne.
    + intros Hall. apply Hne.
      apply Forall_cons in Hall as [Hg' Hall].
      apply Forall_cons in Hall as [Hb' _]. simpl in *. split; congruence.
Qed.

(** ** Broadcasting keeps arrays well formed *)

Lemma length_concat_blocks {A} (n : nat) (ls : list (list A)) :
  Forall (λ l, length l = n) ls → length (concat ls) = (length ls * n)%nat.
Proof.
  induction 1 as [|l ls Hl _ IH]; [done |].
  simpl. rewrite length_app, IH, Hl. lia.
Qed.

Lemma length_chunks {A} (k n : nat) (l : list A) : length (Np.chunks k n l) = k.
Proof. revert l. induction k as [|k IH]; intros l; simpl; [done | by rewrite IH]. Qed.

Lemma length_broadcast_data {A} (from to : list nat) (d : list A) :
  Forall2 (λ f t, f = t ∨ f = 1%nat) from to →
  length d = numel from →
  length (Np.broadcast_data from to d) = numel to.
Proof.
  intros Hfits. revert d.
  induction Hfits as [|f t from to Hft _ IH]; intros d Hlen; [done |].
  cbn [Np.broadcast_data]. change (numel (t :: to)) with (t * numel to)%nat.
  change (numel (f :: from)) with (f * numel from)%nat in Hlen.
  case_decide as Heq.
  - subst t. destruct (chunks_concat f (numel from) d Hlen) as [_ Hblocks].
    rewrite (length_concat_blocks (numel to)).
    + by rewrite length_fmap, length_chunks.
    + apply Forall_fmap. eapply Forall_impl; [exact Hblocks |].
      intros blk Hblk. by apply IH.
  - destruct Hft as [-> | ->]; [done |].
    rewrite (length_concat_blocks (numel to)).
    + by rewrite length_replicate.
    + apply Forall_replicate. apply IH. lia.
Qed.

Lemma broadcast_dim_fits (d1 d2 d : nat) :
  Np.broadcast_dim d1 d2 = Some d →
  (d1 = d ∨ d1 = 1%nat) ∧ (d2 = d ∨ d2 = 1%nat).
Proof.
  unfold Np.broadcast_dim. intros H. repeat case_decide; simplify_eq; auto.
Qed.

Lemma broadcast_rev_fits (r1 r2 r : list nat) :
  Np.broadcast_rev r1 r2 = Some r →
  Forall2 (λ f t, f = t ∨ f = 1%nat) (r1 ++ replicate (length r - length r1) 1%nat) r
  ∧ Forall2 (λ f t, f = t ∨ f = 1%nat) (r2 ++ replicate (length r - length r2) 1%nat) r.
Proof.
  revert r2 r. induction r1 as [|d1 r1 IH]; intros r2 r.
  - simpl. intros [= <-]. rewrite Nat.sub_0_r, Nat.sub_diag, app_nil_r. split.
    + apply Forall2_replicate_l; [done |]. apply Forall_forall. auto.
    + apply Forall_Forall2_diag, Forall_forall. auto.
  - destruct r2 as [|d2 r2].
    + simpl. intros [= <-]. rewrite Nat.sub_diag, app_nil_r. split.
      * apply Forall_Forall2_diag, Forall_forall. auto.
      * change ([] ++ replicate (length (d1 :: r1) - 0) 1%nat)
          with (replicate (length (d1 :: r1)) 1%nat).
        apply Forall2_replicate_l; [done |]. apply Forall_forall. auto.
    + simpl. destruct (Np.broadcast_dim d1 d2) as [d|] eqn:Hd; [| done].
      simpl. destruct (Np.broadcast_rev r1 r2) as [r'|] eqn:Hr; [| done].
      simpl. intros [= <-]. apply broadcast_dim_fits in Hd as [H1 H2].
      destruct (IH r2 r' Hr) as [IH1 IH2]. simpl. split; by constructor.
Qed.

(** Each operand of a broadcast fits the common shape axis by axis, once
    its shape is padded with leading ones. *)
Lemma broadcast_shapes_fits (s1 s2 s : list nat) :
  Np.broadcast_shapes s1 s2 = Some s →
  Forall2 (λ f t, f = t ∨ f = 1%nat) (replicate (length s - length s1) 1%nat ++ s1) s
  ∧ Forall2 (λ f t, f = t ∨ f = 1%nat) (replicate (length s - length s2) 1%nat ++ s2) s.
Proof.
  unfold Np.broadcast_shapes.
  destruct (Np.broadcast_rev (reverse s1) (reverse s2)) as [r|] eqn:Hr; [| done].
  simpl. intros [= <-]. apply broadcast_rev_fits in Hr as [H1 H2].
  rewrite !length_reverse in *.
  apply Forall2_reverse in H1, H2.
  rewrite reverse_app, reverse_replicate, reverse_involutive in H1, H2.
  done.
Qed.

Lemma length_broadcast_to {A} (a b : ndarray A) (s : list nat) :
  wf_array a →
  (Np.broadcast_shapes (shape a) (shape b) = Some s
   ∨ Np.broadcast_shapes (shape b) (shape a) = Some s) →
  length (Np.broadcast_to a s) = numel s.
Proof.
  intros Hwf Hs. unfold Np.broadcast_to.
  assert (Hfits : Forall2 (λ f t, f = t ∨ f = 1%nat)
                    (replicate (length s - length (shape a)) 1%nat ++ shape a) s).
  { destruct Hs as [Hs | Hs]; apply broadcast_shapes_fits in Hs; tauto. }
  apply length_broadcast_data; [done |].
  rewrite numel_app, numel_ones. unfold wf_array in Hwf. lia.
Qed.

(** The result of an operation on two well-formed arrays is well formed. *)
Lemma binary_wf (op : R → R → R) (a b c : ndarray R) :
  wf_array a → wf_array b → Np.binary op a b = Ok c → wf_array c.
Proof.
  intros Ha Hb. unfold Np.binary.
  destruct (Np.broadcast_shapes (shape a) (shape b)) as [s|] eqn:Hs; [| done].
  intros [= <-]. unfold wf_array. simpl.
  rewrite length_zip_with, (length_broadcast_to a b), (length_broadcast_to b a) by auto.
  lia.
Qed.

Lemma length_interleave {A} (n : nat) (cols : list (list A)) :
  Forall (λ l, length l = n) cols →
  length (Np.interleave n cols) = (n * length cols)%nat.
Proof.
  revert cols. induction n as [|n IH]; intros cols Hlen; [done |].
  destruct (heads_lookup n cols Hlen) as [Hheads _].
  cbn [Np.interleave]. rewrite length_app, Hheads, IH.
  - rewrite length_fmap. lia.
  - apply Forall_fmap. eapply Forall_impl; [exact Hlen |].
    intros l Hl. simpl in *. rewrite length_drop. lia.
Qed.

(** X2.  On float64 arrays under the three keys, false_color_image returns
    an image exactly when the 12 um band broadcasts to the shape of the
    11 um band and the cloud-top band does so too; otherwise it raises
    ValueError (from the subtraction or from np.stack).  The image has the
    shape of the 11 um band with a last axis of extent 3.  Both
    notebooks. *)
Theorem false_color_image_returns_iff_shapes_fit
    (bt : gmap string tensor) (bn : gmap Z (ndarray R)) (t12 t11 tct : ndarray R) :
  bt !! "data_12um" = Some (Dense DT_DOUBLE t12) →
  bt !! "data_11um" = Some (Dense DT_DOUBLE t11) →
  bt !! "cloud_top" = Some (Dense DT_DOUBLE tct) →
  bn !! 15%Z = Some t12 →
  bn !! 14%Z = Some t11 →
  bn !! 11%Z = Some tct →
  (Np.broadcast_shapes (shape t12) (shape t11) = Some (shape t11)
   ∧ Np.broadcast_shapes (shape t11) (shape tct) = Some (shape t11) →
   ∃ img, Tfrecords.false_color_image bt = Ok img
          ∧ Netcdf.false_color_image bn = Ok img
          ∧ shape img = shape t11 ++ [3%nat])
  ∧ (¬ (Np.broadcast_shapes (shape t12) (shape t11) = Some (shape t11)
        ∧ Np.broadcast_shapes (shape t11) (shape tct) = Some (shape t11)) →
     Tfrecords.false_color_image bt = Raise ValueError
     ∧ Netcdf.false_color_image bn = Raise ValueError).
Proof.
  intros H12 H11 Hct H15 H14 H11'.
  rewrite (composites_agree bt bn t12 t11 tct) by done.
  rewrite (netcdf_composite_shapes bn t12 t11 tct) by done.
  split.
  - intros Hfit. rewrite decide_True by done. eexists. split_and!; reflexivity.
  - intros Hfit. by rewrite decide_False by done.
Qed.

Lemma false_color_image_returns_iff_shapes_fit_witness :
  (∃ img, Tfrecords.false_color_image uniform_bands = Ok img
          ∧ Netcdf.false_color_image uniform_bands_netcdf = Ok img
          ∧ shape img = [1; 1; 3]%nat)
  ∧ Tfrecords.false_color_image
      (<["cloud_top" := Dense DT_DOUBLE (mk_ndarray [2]%nat [273; 273])]> uniform_bands)
    = Raise ValueError.
Proof.
  split.
  - apply (false_color_image_returns_iff_shapes_fit uniform_bands uniform_bands_netcdf
             (pixel 273) (pixel 273) (pixel 273)); try reflexivity.
    split; reflexivity.
  - apply (false_color_image_returns_iff_shapes_fit
             (<["cloud_top" := Dense DT_DOUBLE (mk_ndarray [2]%nat [273; 273])]> uniform_bands)
             (<[11%Z := mk_ndarray [2]%nat [273; 273]]> uniform_bands_netcdf)
             (pixel 273) (pixel 273) (mk_ndarray [2]%nat [273; 273])); try reflexivity.
    intros [_ H]. vm_compute in H. discriminate H.
Defined.

(** X3.  An image returned for well-formed arrays is well formed: its
    shape is that of the 11 um band with a last axis of extent 3, and it
    holds three numbers for every element of that band. *)
Theorem false_color_image_well_formed
    (bt : gmap string tensor) (bn : gmap Z (ndarray R)) (t12 t11 tct img : ndarray R) :
  bt !! "data_12um" = Some (Dense DT_DOUBLE t12) →
  bt !! "data_11um" = Some (Dense DT_DOUBLE t11) →
  bt !! "cloud_top" = Some (Dense DT_DOUBLE tct) →
  bn !! 15%Z = Some t12 →
  bn !! 14%Z = Some t11 →
  bn !! 11%Z = Some tct →
  wf_array t12 → wf_array t11 → wf_array tct →
  Tfrecords.false_color_image bt = Ok img ∨ Netcdf.false_color_image bn = Ok img →
  shape img = shape t11 ++ [3%nat]
  ∧ wf_array img
  ∧ length (data img) = (3 * length (data t11))%nat.
Proof.
  intros H12 H11 Hct H15 H14 H11' W12 W11 Wct Himg.
  rewrite (composites_agree bt bn t12 t11 tct) in Himg by done.
  assert (Himg' : Netcdf.false_color_image bn = Ok img) by (by destruct Himg).
  rewrite (netcdf_composite_shapes bn t12 t11 tct) in Himg' by done.
  case_decide as Hfit; [| done]. destruct Hfit as [Hr Hg].
  injection Himg' as <-.
  pose proof (length_broadcast_to t12 t11 (shape t11) W12 (or_introl Hr)) as L12.
  pose proof (length_broadcast_to t11 tct (shape t11) W11 (or_introl Hg)) as L11.
  pose proof (length_broadcast_to tct t11 (shape t11) Wct (or_intror Hg)) as Lct.
  unfold wf_array in *.
  cbn [shape data Np.clip Np.elementwise]. rewrite length_fmap.
  rewrite length_interleave.
  - rewrite numel_app. change (numel [3%nat]) with 3%nat. cbn [length].
    split_and!; [done | lia | lia].
  - repeat apply Forall_cons_2; [| | | apply Forall_nil_2];
      unfold Netcdf.normalize_range, Np.elementwise; cbn [data];
      rewrite !length_fmap, ?length_zip_with; lia.
Qed.

Lemma false_color_image_well_formed_witness :
  ∃ img, Tfrecords.false_color_image uniform_bands = Ok img
         ∧ shape img = [1; 1; 3]%nat
         ∧ wf_array img
         ∧ length (data img) = 3%nat.
Proof.
  eexists. split; [reflexivity |].
  apply (false_color_image_well_formed uniform_bands uniform_bands_netcdf
           (pixel 273) (pixel 273) (pixel 273)); try reflexivity.
  by left.
Defined.

(** ** Values of the composite *)

Lemma clip_inside (x : R) : 0 <= x <= 1 → Rmin (Rmax x 0) 1 = x.
Proof.
  intros [H0 H1]. unfold Rmin, Rmax.
  destruct (Rle_dec x 0), (Rle_dec _ 1); lra.
Qed.

Lemma clip_clip (a : ndarray R) : Np.clip (Np.clip a 0 1) 0 1 = Np.clip a 0 1.
Proof.
  unfold Np.clip, Np.elementwise. cbn [shape data]. f_equal.
  rewrite <- list_fmap_compose. apply list_fmap_ext.
  intros i x _. simpl. apply clip_inside, clip_unit_interval.
Qed.

Lemma tfrecords_composite_clipped (bt : gmap string tensor) (img : ndarray R) :
  Tfrecords.false_color_image bt = Ok img → ∃ stacked, img = Np.clip stacked 0 1.
Proof.
  rewrite false_color_image_channels.
  destruct (Tfrecords.ash_channels bt) as [[[r g] b]|e]; [| done].
  cbn [mbind result_bind].
  destruct (Np.stack_last [r; g; b]) as [stacked|e]; [| done].
  cbn [mbind result_bind]. intros [= <-]. eauto.
Qed.

(** X4.  Clipping an image that false_color_image returned to [0, 1]
    again changes nothing. *)
Theorem false_color_image_clip_idempotent
    (bt : gmap string tensor) (bn : gmap Z (ndarray R)) (img : ndarray R) :
  Tfrecords.false_color_image bt = Ok img ∨ Netcdf.false_color_image bn = Ok img →
  Np.clip img 0 1 = img.
Proof.
  intros [Himg | Himg].
  - apply tfrecords_composite_clipped in Himg as [stacked ->]. apply clip_clip.
  - apply netcdf_composite_clipped in Himg as [stacked ->]. apply clip_clip.
Qed.

Lemma false_color_image_clip_idempotent_witness :
  ∃ img, Tfrecords.false_color_image uniform_bands = Ok img ∧ Np.clip img 0 1 = img.
Proof.
  eexists. split; [reflexivity |].
  apply (false_color_image_clip_idempotent uniform_bands uniform_bands_netcdf).
  left. reflexivity.
Defined.

(** X5.  With the clip that false_color_image applies, the normalization
    saturates: for each of the three bounds pairs (lo, hi) of the
    notebooks, the clipped value of normalize_range is in [0, 1], it is 0
    for every x <= lo and 1 for every x >= hi. *)
Theorem clipped_normalization_saturates (x : R) (bounds : R * R) :
  bounds ∈ [Tfrecords._T11_BOUNDS; Tfrecords._CLOUD_TOP_TDIFF_BOUNDS;
            Tfrecords._TDIFF_BOUNDS] →
  ∃ y, Np.clip (Tfrecords.normalize_range (scalar x) bounds) 0 1 = scalar y
       ∧ Np.clip (Netcdf.normalize_range (scalar x) bounds) 0 1 = scalar y
       ∧ 0 <= y <= 1
       ∧ (x <= bounds.1 → y = 0)
       ∧ (bounds.2 <= x → y = 1).
Proof.
  intros Hb.
  exists (Rmin (Rmax ((x - bounds.1) / (bounds.2 - bounds.1)) 0) 1).
  split; [reflexivity |]. split; [reflexivity |].
  split; [apply clip_unit_interval |].
  assert (Hlt : bounds.1 < bounds.2)
    by (apply notebook_bounds_cases in Hb as [-> | [-> | ->]]; simpl; lra).
  assert (Hq : (x - bounds.1) / (bounds.2 - bounds.1) * (bounds.2 - bounds.1)
               = x - bounds.1) by (field; lra).
  generalize dependent ((x - bounds.1) / (bounds.2 - bounds.1)). intros q Hq.
  assert (Hpos : 0 < bounds.2 - bounds.1) by lra.
  unfold Rmin, Rmax.
  destruct (Rle_dec q 0) as [Hle0 | Hgt0]; destruct (Rle_dec _ 1) as [Hle1 | Hgt1];
    split; intros; nra.
Qed.

Lemma clipped_normalization_saturates_witness :
  ∃ y, Np.clip (Tfrecords.normalize_range (scalar 310) (243, 303)) 0 1 = scalar y
       ∧ Np.clip (Netcdf.normalize_range (scalar 310) (243, 303)) 0 1 = scalar y
       ∧ 0 <= y <= 1
       ∧ (310 <= 243 → y = 0)
       ∧ (303 <= 310 → y = 1).
Proof.
  apply (clipped_normalization_saturates 310 (243, 303)).
  apply list_elem_of_here.
Defined.

(** Element [c] of position [i] of a stack. *)
Lemma lookup_interleave {A} (n : nat) (cols : list (list A)) (i c : nat) :
  Forall (λ l, length l = n) cols →
  (c < length cols)%nat →
  Np.interleave n cols !! (i * length cols + c)%nat = cols !! c ≫= (λ l, l !! i).
Proof.
  revert cols i. induction n as [|n IH]; intros cols i Hlen Hc.
  - simpl. destruct (cols !! c) as [l|] eqn:Hl; [| done]. simpl.
    rewrite Forall_forall in Hlen.
    assert (l = []) as -> by (apply nil_length_inv, Hlen; by eapply list_elem_of_lookup_2).
    done.
  - destruct (heads_lookup n cols Hlen) as [Hhl Hhc].
    cbn [Np.interleave]. destruct i as [|i].
    + rewrite lookup_app_l by (rewrite Hhl; lia). simpl. rewrite Hhc.
      destruct (cols !! c) as [l|]; [| done]. simpl. by destruct l.
    + rewrite lookup_app_r by (rewrite Hhl; lia).
      replace (S i * length cols + c - length (cols ≫= take 1))%nat
        with (i * length (drop 1 <$> cols) + c)%nat
        by (rewrite Hhl, length_fmap; lia).
      rewrite IH.
      * rewrite list_lookup_fmap. destruct (cols !! c) as [l|]; [| done].
        simpl. by rewrite lookup_drop.
      * apply Forall_fmap. eapply Forall_impl; [exact Hlen |].
        intros l Hl. simpl in *. rewrite length_drop. lia.
      * by rewrite length_fmap.
Qed.

Lemma map_fmap {A B} (f : A → B) (l : list A) : map f l = f <$> l.
Proof. reflexivity. Qed.

(** X6.  For float64 bands of one shape, the three numbers of the image
    at pixel i are the clipped normalizations of the 12 um - 11 um
    difference with (-4, 2), of the 11 um - cloud-top difference with
    (-4, 5) and of the 11 um band with (243, 303), in this order (the
    channel is the last axis).  Both notebooks. *)
Theorem false_color_image_pixel
    (bt : gmap string tensor) (bn : gmap Z (ndarray R)) (t12 t11 tct : ndarray R)
    (i : nat) (x12 x11 xct : R) :
  bt !! "data_12um" = Some (Dense DT_DOUBLE t12) →
  bt !! "data_11um" = Some (Dense DT_DOUBLE t11) →
  bt !! "cloud_top" = Some (Dense DT_DOUBLE tct) →
  bn !! 15%Z = Some t12 →
  bn !! 14%Z = Some t11 →
  bn !! 11%Z = Some tct →
  wf_array t12 → wf_array t11 → wf_array tct →
  shape t12 = shape t11 → shape tct = shape t11 →
  data t12 !! i = Some x12 →
  data t11 !! i = Some x11 →
  data tct !! i = Some xct →
  ∃ img,
    Tfrecords.false_color_image bt = Ok img
    ∧ Netcdf.false_color_image bn = Ok img
    ∧ data img !! (3 * i)%nat = Some (Rmin (Rmax ((x12 - x11 - -4) / (2 - -4)) 0) 1)
    ∧ data img !! (3 * i + 1)%nat = Some (Rmin (Rmax ((x11 - xct - -4) / (5 - -4)) 0) 1)
    ∧ data img !! (3 * i + 2)%nat = Some (Rmin (Rmax ((x11 - 243) / (303 - 243)) 0) 1).
Proof.
  intros H12 H11 Hct H15 H14 H11' W12 W11 Wct Hs12 Hsct Hx12 Hx11 Hxct.
  rewrite (composites_agree bt bn t12 t11 tct) by done.
  rewrite (netcdf_composite_shapes bn t12 t11 tct) by done.
  rewrite decide_True
    by (rewrite Hs12, Hsct; split; apply broadcast_shapes_same).
  assert (B12 : Np.broadcast_to t12 (shape t11) = data t12)
    by (rewrite <- Hs12; by apply broadcast_to_same).
  assert (Bct : Np.broadcast_to tct (shape t11) = data tct)
    by (rewrite <- Hsct; by apply broadcast_to_same).
  rewrite B12, Bct, (broadcast_to_same t11) by done.
  eexists. split; [reflexivity |]. split; [reflexivity |].
  unfold Netcdf.normalize_range, Netcdf._TDIFF_BOUNDS, Netcdf._CLOUD_TOP_TDIFF_BOUNDS,
    Netcdf._T11_BOUNDS, Np.clip.
  unfold Np.elementwise. cbn [shape data fst snd].
  rewrite !map_fmap.
  set (cols := [_; _; _]).
  assert (Hlen : Forall (λ l, length l = numel (shape t11)) cols).
  { assert (L12 : length (data t12) = numel (shape t11)) by (rewrite <- Hs12; exact W12).
    assert (Lct : length (data tct) = numel (shape t11)) by (rewrite <- Hsct; exact Wct).
    unfold wf_array in W11.
    repeat apply Forall_cons_2; [| | | apply Forall_nil_2];
      rewrite !length_fmap, ?length_zip_with; lia. }
  rewrite !list_lookup_fmap.
  replace (3 * i)%nat with (i * length cols + 0)%nat by (simpl; lia).
  replace (i * length cols + 0 + 1)%nat with (i * length cols + 1)%nat by lia.
  replace (i * length cols + 0 + 2)%nat with (i * length cols + 2)%nat by lia.
  rewrite !lookup_interleave by (done || (simpl; lia)).
  unfold cols. cbn [lookup list_lookup mbind option_bind].
  rewrite !list_lookup_fmap, !lookup_zip_with, Hx12, Hx11, Hxct.
  done.
Qed.

Lemma false_color_image_pixel_witness :
  ∃ img,
    Tfrecords.false_color_image uniform_bands = Ok img
    ∧ Netcdf.false_color_image uniform_bands_netcdf = Ok img
    ∧ data img !! (3 * 0)%nat = Some (Rmin (Rmax ((273 - 273 - -4) / (2 - -4)) 0) 1)
    ∧ data img !! (3 * 0 + 1)%nat = Some (Rmin (Rmax ((273 - 273 - -4) / (5 - -4)) 0) 1)
    ∧ data img !! (3 * 0 + 2)%nat = Some (Rmin (Rmax ((273 - 243) / (303 - 243)) 0) 1).
Proof.
  apply (false_color_image_pixel uniform_bands uniform_bands_netcdf
           (pixel 273) (pixel 273) (pixel 273) 0 273 273 273); reflexivity.
Defined.

(** ** The normalization at degenerate bounds *)





(** ** What [parse_example] reads and returns *)

Lemma feature_spec_dom : dom Tfrecords.feature_spec = dom record_schema.
Proof. apply (bool_decide_unpack _). by vm_compute. Qed.

Lemma parse_feature_reads (ex1 ex2 : gmap string Tfrecords.feature) (key : string)
    (cfg : Tfrecords.feature_config) :
  ex1 !! key = ex2 !! key →
  Tfrecords.parse_feature ex1 key cfg = Tfrecords.parse_feature ex2 key cfg.
Proof. intros H. unfold Tfrecords.parse_feature. by rewrite H. Qed.

Lemma parse_feature_scalar (ex : gmap string Tfrecords.feature) (key : string)
    (dt : dtype) (t : tensor) :
  Tfrecords.parse_feature ex key (Tfrecords.FixedLenFeature [] dt) = Ok t →
  ∃ f x, ex !! key = Some f
         ∧ Tfrecords.feature_values dt f = Some [x]
         ∧ t = Dense dt (scalar x).
Proof.
  unfold Tfrecords.parse_feature.
  destruct (ex !! key) as [f|]; [| done].
  destruct (Tfrecords.feature_values dt f) as [v|] eqn:Hv; [| done].
  case_decide as Hlen; [| done]. intros [= <-].
  destruct v as [|x [|? ?]]; try done. by exists f, x.
Qed.

Lemma parse_feature_sparse (ex : gmap string Tfrecords.feature) (key : string)
    (dt : dtype) (t : tensor) :
  Tfrecords.parse_feature ex key (Tfrecords.VarLenFeature dt) = Ok t →
  (ex !! key = None ∧ t = Sparse dt [])
  ∨ ∃ f v, ex !! key = Some f ∧ Tfrecords.feature_values dt f = Some v ∧ t = Sparse dt v.
Proof.
  unfold Tfrecords.parse_feature.
  destruct (ex !! key) as [f|]; [| intros [= <-]; by left].
  destruct (Tfrecords.feature_values dt f) as [v|] eqn:Hv; [| done].
  intros [= <-]. right. by exists f, v.
Qed.

Section parse_example_values.
Context `{TF : Tfrecords.TensorFlow}.

Lemma reparse_each_Ok (keys : list string) (out_type : dtype)
    (features features' : gmap string tensor) :
  NoDup keys →
  Tfrecords.reparse_each keys out_type features = Ok features' →
  (∀ key, key ∈ keys →
     ∃ bytes a, features !! key = Some (Dense DT_STRING (scalar bytes))
                ∧ Tfrecords.decode_tensor_proto bytes out_type = Ok a
                ∧ features' !! key = Some (Dense out_type a))
  ∧ (∀ key, key ∉ keys → features' !! key = features !! key).
Proof.
  intros Hnd. revert features.
  induction Hnd as [|k keys Hnotin Hnd IH]; intros features; simpl.
  - intros [= <-]. split; [| done]. intros key Hin. by apply elem_of_nil in Hin.
  - destruct (Tfrecords.reparse k out_type features) as [f1|e] eqn:H1; [| done].
    cbn [mbind result_bind]. intros Hrest.
    apply reparse_Ok in H1 as (bytes & a & Hk & Hdec & ->).
    destruct (IH _ Hrest) as [Hin Hout]. split.
    + intros key [-> | Hkey]%elem_of_cons.
      * exists bytes, a. split_and!; [done | done |].
        rewrite (Hout k Hnotin). apply lookup_insert_eq.
      * destruct (Hin key Hkey) as (bytes' & a' & Hk' & Hdec' & Hf').
        exists bytes', a'. split_and!; [| done | done].
        rewrite lookup_insert_ne in Hk'; [done |]. by intros ->.
    + intros key Hkey. rewrite not_elem_of_cons in Hkey. destruct Hkey as [Hne Hkey].
      rewrite (Hout key Hkey). by apply lookup_insert_ne.
Qed.

(** The steps of a successful [parse_example]: the dictionary of
    [parse_single_example], and what becomes of each of its entries. *)
Lemma parse_example_Ok (serialized : string) (d : gmap string tensor) :
  Tfrecords.parse_example serialized = Ok d →
  ∃ d0,
    Tfrecords.parse_single_example serialized Tfrecords.feature_spec = Ok d0
    ∧ (∀ key out_type, (key, out_type) ∈ tensor_fields →
         ∃ bytes a, d0 !! key = Some (Dense DT_STRING (scalar bytes))
                    ∧ Tfrecords.decode_tensor_proto bytes out_type = Ok a
                    ∧ d !! key = Some (Dense out_type a))
    ∧ (∀ key, key ∉ tensor_fields.*1 → d !! key = d0 !! key).
Proof.
  unfold Tfrecords.parse_example.
  destruct (Tfrecords.parse_single_example _ _) as [d0|e] eqn:H0; [| done].
  cbn [mbind result_bind].
  destruct (Tfrecords.reparse_each _ _ d0) as [d1|e] eqn:H1; [| done].
  cbn [mbind result_bind].
  destruct (Tfrecords.reparse _ _ d1) as [d2|e] eqn:H2; [| done].
  cbn [mbind result_bind].
  destruct (Tfrecords.reparse _ _ d2) as [d3|e] eqn:H3; [| done].
  cbn [mbind result_bind]. intros [= <-]. exists d0. split; [done |].
  apply reparse_each_Ok in H1 as [Hin1 Hout1];
    [| apply (bool_decide_unpack _); by vm_compute].
  apply reparse_Ok in H2 as (b2 & a2 & Hk2 & Hdec2 & ->).
  apply reparse_Ok in H3 as (b3 & a3 & Hk3 & Hdec3 & ->).
  rewrite lookup_insert_ne in Hk3 by done.
  rewrite Hout1 in Hk2, Hk3 by (apply (bool_decide_unpack _); by vm_compute).
  split.
  - intros key out_type Hk. unfold tensor_fields in Hk.
    apply elem_of_app in Hk as [Hk | Hk].
    + apply list_elem_of_fmap in Hk as (band & [= -> ->] & Hband).
      destruct (Hin1 band) as (bytes & a & Hd0 & Hdec & Hd1);
        [apply elem_of_app; by left |].
      exists bytes, a. split_and!; [done | done |].
      rewrite !lookup_insert_ne; [done | |]; intros <-;
        revert Hband; apply (bool_decide_unpack _); by vm_compute.
    + rewrite !elem_of_cons, elem_of_nil in Hk.
      destruct Hk as [[= -> ->] | [[= -> ->] | [[= -> ->] | []]]].
      * destruct (Hin1 "brightness_temperature_difference"%string)
          as (bytes & a & Hd0 & Hdec & Hd1); [solve_elem_of_list |].
        exists bytes, a. split_and!; [done | done |].
        by rewrite !lookup_insert_ne by done.
      * exists b2, a2. split_and!; [done | done |].
        rewrite lookup_insert_ne by done. apply lookup_insert_eq.
      * exists b3, a3. split_and!; [done | done |]. apply lookup_insert_eq.
  - intros key Hkey.
    assert (Hne : key ≠ "human_individual_masks"%string
                  ∧ key ≠ "human_pixel_masks"%string
                  ∧ key ∉ Tfrecords.goes_bands
                          ++ ["brightness_temperature_difference"%string]).
    { unfold tensor_fields in Hkey. rewrite fmap_app, <- list_fmap_compose in Hkey.
      rewrite not_elem_of_app in Hkey. destruct Hkey as [Hb Hr].
      cbn in Hr. rewrite !not_elem_of_cons in Hr.
      destruct Hr as (? & ? & ? & _). split_and!; [done | done |].
      rewrite not_elem_of_app, not_elem_of_cons. split_and!; [| done | apply not_elem_of_nil].
      intros Hin. apply Hb. apply list_elem_of_fmap. by exists key. }
    destruct Hne as (Hne1 & Hne2 & Hne3).
    rewrite !lookup_insert_ne by done. by apply Hout1.
Qed.

End parse_example_values.

Lemma feature_values_string (f : Tfrecords.feature) (v : list string) :
  Tfrecords.feature_values DT_STRING f = Some v → f = Tfrecords.BytesList v.
Proof. destruct f; simpl; intros [= <-]; done. Qed.

Lemma feature_values_int64 (f : Tfrecords.feature) (v : list Z) :
  Tfrecords.feature_values DT_INT64 f = Some v → f = Tfrecords.Int64List v.
Proof. destruct f; simpl; intros [= <-]; done. Qed.

Lemma feature_values_float (f : Tfrecords.feature) (v : list R) :
  Tfrecords.feature_values DT_FLOAT f = Some v → f = Tfrecords.FloatList v.
Proof. destruct f; simpl; intros [= <-]; done. Qed.

Lemma dense_string_inj (a b : ndarray string) :
  Dense DT_STRING a = Dense DT_STRING b → a = b.
Proof.
  intros H.
  apply (f_equal (λ t, match t with
                       | Dense DT_STRING x => x
                       | _ => a
                       end)) in H.
  exact H.
Qed.

Section parse_example_returns.
Context `{TF : Tfrecords.TensorFlow}.

(** An entry of the dictionary of [parse_single_example] under a scalar
    configuration is the one value of the field. *)
Lemma parse_single_example_scalar (serialized : string)
    (ex : gmap string Tfrecords.feature) (d0 : gmap string tensor)
    (key : string) (dt : dtype) :
  Tfrecords.decode_example serialized = Ok ex →
  Tfrecords.parse_single_example serialized Tfrecords.feature_spec = Ok d0 →
  Tfrecords.feature_spec !! key = Some (Tfrecords.FixedLenFeature [] dt) →
  ∃ f x, ex !! key = Some f
         ∧ Tfrecords.feature_values dt f = Some [x]
         ∧ d0 !! key = Some (Dense dt (scalar x)).
Proof.
  intros Hdec (ex' & Hdec' & Hkeys)%parse_single_example_Ok Hspec.
  assert (ex' = ex) as -> by congruence.
  specialize (Hkeys key). rewrite Hspec in Hkeys. simpl in Hkeys.
  destruct (d0 !! key) as [t|]; [| done]. simpl in Hkeys.
  injection Hkeys as Hkeys. symmetry in Hkeys.
  apply parse_feature_scalar in Hkeys as (f & x & Hf & Hv & ->). by exists f, x.
Qed.

(** X8.  A dictionary returned by parse_example comes from a well-formed
    record, and its entries are the values of the record: each of the
    twelve tensor fields is the tensor decoded from the one byte string of
    the field, with the declared element type; projection_wkt, the three
    int64 fields and the four float32 fields are the one value of their
    field; satellite_scan_starts holds the values of its field, none when
    the field is absent. *)
Theorem parse_example_values (serialized : string)
    (ex : gmap string Tfrecords.feature) (d : gmap string tensor) :
  Tfrecords.decode_example serialized = Ok ex →
  Tfrecords.parse_example serialized = Ok d →
  well_formed_record serialized
  ∧ (∀ key out_type, (key, out_type) ∈ tensor_fields →
       ∃ bytes a, ex !! key = Some (Tfrecords.BytesList [bytes])
                  ∧ Tfrecords.decode_tensor_proto bytes out_type = Ok a
                  ∧ d !! key = Some (Dense out_type a))
  ∧ (∃ wkt, ex !! "projection_wkt" = Some (Tfrecords.BytesList [wkt])
            ∧ d !! "projection_wkt" = Some (Dense DT_STRING (scalar wkt)))
  ∧ (∀ key, key ∈ ["n_times_before"; "n_times_after"; "timestamp"]%string →
       ∃ n, ex !! key = Some (Tfrecords.Int64List [n])
            ∧ d !! key = Some (Dense DT_INT64 (scalar n)))
  ∧ (∀ key, key ∈ ["col_min"; "row_min"; "col_size"; "row_size"]%string →
       ∃ x, ex !! key = Some (Tfrecords.FloatList [x])
            ∧ d !! key = Some (Dense DT_FLOAT (scalar x)))
  ∧ ((ex !! "satellite_scan_starts" = None
      ∧ d !! "satellite_scan_starts" = Some (Sparse DT_INT64 []))
     ∨ ∃ starts, ex !! "satellite_scan_starts" = Some (Tfrecords.Int64List starts)
                 ∧ d !! "satellite_scan_starts" = Some (Sparse DT_INT64 starts)).
Proof.
  intros Hdec Hparse.
  apply parse_example_Ok in Hparse as (d0 & H0 & Htensor & Hother).
  assert (Htensors : ∀ key out_type, (key, out_type) ∈ tensor_fields →
            ∃ bytes a, ex !! key = Some (Tfrecords.BytesList [bytes])
                       ∧ Tfrecords.decode_tensor_proto bytes out_type = Ok a
                       ∧ d !! key = Some (Dense out_type a)).
  { intros key out_type Hk.
    destruct (Htensor key out_type Hk) as (bytes & a & Hd0 & Hdecode & Hd).
    destruct (parse_single_example_scalar serialized ex d0 key DT_STRING Hdec H0)
      as (f & x & Hf & Hv & Hd0'); [by eapply feature_spec_tensor_fields |].
    apply feature_values_string in Hv as ->.
    rewrite Hd0 in Hd0'. apply (inj Some) in Hd0'.
    apply dense_string_inj in Hd0'. injection Hd0' as ->.
    by exists x, a. }
  assert (Hwkt : ∃ wkt, ex !! "projection_wkt" = Some (Tfrecords.BytesList [wkt])
                        ∧ d !! "projection_wkt" = Some (Dense DT_STRING (scalar wkt))).
  { destruct (parse_single_example_scalar serialized ex d0 "projection_wkt" DT_STRING
                Hdec H0 eq_refl) as (f & x & Hf & Hv & Hd0).
    apply feature_values_string in Hv as ->. exists x. split; [done |].
    rewrite Hother; [done |]. apply (bool_decide_unpack _). by vm_compute. }
  assert (Hints : ∀ key, key ∈ ["n_times_before"; "n_times_after"; "timestamp"]%string →
            ∃ n, ex !! key = Some (Tfrecords.Int64List [n])
                 ∧ d !! key = Some (Dense DT_INT64 (scalar n))).
  { intros key Hk. rewrite !elem_of_cons, elem_of_nil in Hk.
    destruct Hk as [-> | [-> | [-> | []]]].
    1: destruct (parse_single_example_scalar serialized ex d0 "n_times_before" DT_INT64
                  Hdec H0 eq_refl) as (f & x & Hf & Hv & Hd0).
    2: destruct (parse_single_example_scalar serialized ex d0 "n_times_after" DT_INT64
                  Hdec H0 eq_refl) as (f & x & Hf & Hv & Hd0).
    3: destruct (parse_single_example_scalar serialized ex d0 "timestamp" DT_INT64
                  Hdec H0 eq_refl) as (f & x & Hf & Hv & Hd0).
    all: apply feature_values_int64 in Hv as ->; exists x; split; [done |].
    all: rewrite Hother; [done |]; apply (bool_decide_unpack _); by vm_compute. }
  assert (Hfloats : ∀ key, key ∈ ["col_min"; "row_min"; "col_size"; "row_size"]%string →
            ∃ x, ex !! key = Some (Tfrecords.FloatList [x])
                 ∧ d !! key = Some (Dense DT_FLOAT (scalar x))).
  { intros key Hk. rewrite !elem_of_cons, elem_of_nil in Hk.
    destruct Hk as [-> | [-> | [-> | [-> | []]]]].
    1: destruct (parse_single_example_scalar serialized ex d0 "col_min" DT_FLOAT
                  Hdec H0 eq_refl) as (f & x & Hf & Hv & Hd0).
    2: destruct (parse_single_example_scalar serialized ex d0 "row_min" DT_FLOAT
                  Hdec H0 eq_refl) as (f & x & Hf & Hv & Hd0).
    3: destruct (parse_single_example_scalar serialized ex d0 "col_size" DT_FLOAT
                  Hdec H0 eq_refl) as (f & x & Hf & Hv & Hd0).
    4: destruct (parse_single_example_scalar serialized ex d0 "row_size" DT_FLOAT
                  Hdec H0 eq_refl) as (f & x & Hf & Hv & Hd0).
    all: apply feature_values_float in Hv as ->; exists x; split; [done |].
    all: rewrite Hother; [done |]; apply (bool_decide_unpack _); by vm_compute. }
  assert (Hstarts :
    (ex !! "satellite_scan_starts" = None
     ∧ d !! "satellite_scan_starts" = Some (Sparse DT_INT64 []))
    ∨ ∃ starts, ex !! "satellite_scan_starts" = Some (Tfrecords.Int64List starts)
                ∧ d !! "satellite_scan_starts" = Some (Sparse DT_INT64 starts)).
  { rewrite Hother by (apply (bool_decide_unpack _); by vm_compute).
    apply parse_single_example_Ok in H0 as (ex' & Hdec' & Hkeys).
    assert (ex' = ex) as -> by congruence.
    specialize (Hkeys "satellite_scan_starts"%string).
    change (Tfrecords.feature_spec !! "satellite_scan_starts"%string)
      with (Some (Tfrecords.VarLenFeature DT_INT64)) in Hkeys.
    destruct (d0 !! "satellite_scan_starts"%string) as [t|]; [| done].
    change (Some (Ok t)
            = Some (Tfrecords.parse_feature ex "satellite_scan_starts"
                      (Tfrecords.VarLenFeature DT_INT64))) in Hkeys.
    apply (inj Some) in Hkeys. symmetry in Hkeys.
    apply parse_feature_sparse in Hkeys as [[Hex ->] | (f & v & Hex & Hv & ->)].
    - by left.
    - right. apply feature_values_int64 in Hv as ->. by exists v. }
  split_and!; try done.
  exists ex. split; [done |]. split_and!.
  - intros key out_type Hk. destruct (Htensors key out_type Hk) as (b & a & ? & ? & _).
    by exists b, a.
  - destruct Hwkt as (wkt & ? & _). by exists wkt.
  - intros key Hk. destruct (Hints key Hk) as (n & ? & _). by exists n.
  - intros key Hk. destruct (Hfloats key Hk) as (x & ? & _). by exists x.
  - destruct Hstarts as [[? _] | (v & ? & _)]; [by left | right; by exists v].
Qed.

End parse_example_returns.

Lemma parse_example_values_witness :
  ∃ d, Tfrecords.parse_example (TF:=sample_tensorflow) "contrail" = Ok d
       ∧ (∀ key out_type, (key, out_type) ∈ tensor_fields →
            ∃ bytes a, sample_example "M1" !! key = Some (Tfrecords.BytesList [bytes])
                       ∧ sample_decode_tensor bytes out_type = Ok a
                       ∧ d !! key = Some (Dense out_type a)).
Proof.
  destruct (parse_example_total (TF:=sample_tensorflow) "contrail"
              sample_record_well_formed) as [d Hd].
  exists d. split; [exact Hd |].
  destruct (parse_example_values (TF:=sample_tensorflow) "contrail"
              (sample_example "M1") d eq_refl Hd) as (_ & Htensor & _).
  exact Htensor.
Defined.


Lemma record_schema_keys (key : string) :
  key ∈ dom record_schema →
  key ≠ "labeler_id"%string ∧ key ≠ "comment"%string.
Proof.
  intros Hkey. split; intros ->; revert Hkey;
    apply (bool_decide_unpack _); by vm_compute.
Qed.

Section parse_example_reads.
Context `{TF : Tfrecords.TensorFlow}.

(** X9.  parse_example reads the fields of its feature specification
    only: two records that decode to examples that agree on the fields of
    the schema give the same result, a dictionary or an error, whatever
    other fields they hold. *)
Theorem parse_example_ignores_other_fields (serialized1 serialized2 : string)
    (ex1 ex2 : gmap string Tfrecords.feature) :
  Tfrecords.decode_example serialized1 = Ok ex1 →
  Tfrecords.decode_example serialized2 = Ok ex2 →
  (∀ key, key ∈ dom record_schema → ex1 !! key = ex2 !! key) →
  Tfrecords.parse_example serialized1 = Tfrecords.parse_example serialized2.
Proof.
  intros Hdec1 Hdec2 Hagree.
  assert (H0 : Tfrecords.parse_single_example serialized1 Tfrecords.feature_spec
               = Tfrecords.parse_single_example serialized2 Tfrecords.feature_spec).
  { unfold Tfrecords.parse_single_example. rewrite Hdec1, Hdec2.
    cbn [mbind result_bind]. f_equal. apply map_eq. intros key.
    rewrite !map_lookup_imap.
    destruct (Tfrecords.feature_spec !! key) as [cfg|] eqn:Hkey; [| done].
    simpl. f_equal. apply parse_feature_reads, Hagree.
    rewrite <- feature_spec_dom. apply elem_of_dom. by exists cfg. }
  unfold Tfrecords.parse_example. by rewrite H0.
Qed.

End parse_example_reads.

Lemma parse_example_ignores_other_fields_witness :
  Tfrecords.parse_example (TF:=sample_tensorflow_annotated) "annotated"
  = Tfrecords.parse_example (TF:=sample_tensorflow_annotated) "contrail".
Proof.
  apply (parse_example_ignores_other_fields (TF:=sample_tensorflow_annotated)
           "annotated" "contrail"
           (<["labeler_id" := Tfrecords.Int64List [7%Z]]>
              (<["comment" := Tfrecords.BytesList ["thin cirrus"%string]]>
                 (sample_example "M1")))
           (sample_example "M1")).
  - reflexivity.
  - reflexivity.
  - intros key [Hne1 Hne2]%record_schema_keys.
    by rewrite !lookup_insert_ne.
Defined.

(** ** The loop after the tenth figure *)

Lemma visualization_loop_nonempty (iterator : list (result (gmap string tensor)))
    (st : Tfrecords.loop_state) :
  (Tfrecords.visualization_loop iterator st).1 ≠ [].
Proof.
  destruct iterator as [|[features|e] rest]; simpl; [done | | done].
  destruct (Tfrecords.loop_body features st) as [st' [[|]|e]]; [| done | done].
  by destruct (Tfrecords.visualization_loop rest st').
Qed.

(** A run that ends with ten figures was left by [break]: whatever follows
    in the iterator is not reached. *)
Lemma visualization_loop_break (before rest : list (result (gmap string tensor)))
    (st final : Tfrecords.loop_state) (states : list Tfrecords.loop_state) :
  Tfrecords.visualization_loop before st = (states, Ok ()) →
  last states = Some final →
  (Tfrecords.count st < 10)%nat →
  Tfrecords.count final = 10%nat →
  Tfrecords.visualization_loop (before ++ rest) st = (states, Ok ()).
Proof.
  revert st states. induction before as [|[features|e'] before IH]; intros st states.
  - simpl. intros [= <-] [= <-] Hlt Hfinal. lia.
  - simpl. destruct (Tfrecords.loop_body features st) as [st' o] eqn:Hbody.
    destruct o as [[|]|e''].
    + pose proof (visualization_loop_nonempty before st') as Hne.
      destruct (Tfrecords.visualization_loop before st') as [states' outcome] eqn:Hloop.
      intros [= <- ->] Hlast Hlt Hfinal.
      assert (Hlt' : (Tfrecords.count st' < 10)%nat).
      { apply loop_body_cases in Hbody
          as [[-> _] | (fig & mask & _ & _ & _ & -> & Ho)]; [done |].
        simpl. case_decide; [done | lia]. }
      assert (Hlast' : last states' = Some final).
      { destruct states' as [|s states']; [done | by rewrite last_cons_cons in Hlast]. }
      by rewrite (IH st' states' Hloop Hlast' Hlt' Hfinal).
    + done.
    + done.
  - done.
Qed.

Section visualization_loop_break.
Context `{TF : Tfrecords.TensorFlow}.

(** X10.  Once the tenth figure is shown the loop is left and nothing
    more is read from the dataset: a run that ends with count = 10 is the
    same, with the same figures, whatever records follow, unreadable or
    undecodable ones included; ten figures have then been shown. *)
Theorem run_cells_stops_after_ten_figures (records rest : list (result string))
    (states : list Tfrecords.loop_state) (final : Tfrecords.loop_state) :
  Tfrecords.run_cells records = (states, Ok ()) →
  last states = Some final →
  Tfrecords.count final = 10%nat →
  Tfrecords.run_cells (records ++ rest) = (states, Ok ())
  ∧ length (Tfrecords.shown final) = 10%nat.
Proof.
  unfold Tfrecords.run_cells, Tfrecords.dataset. intros Hrun Hlast Hfinal.
  rewrite fmap_app. split.
  - eapply visualization_loop_break; [exact Hrun | exact Hlast | simpl; lia | exact Hfinal].
  - assert (Hlt : (Tfrecords.count (Tfrecords.mk_loop_state 0 []) < 10)%nat)
      by (simpl; lia).
    assert (Hinv : loop_invariant (Tfrecords.mk_loop_state 0 []))
      by (unfold loop_invariant; simpl; split_and!; [lia | done | apply Forall_nil_2]).
    destruct (visualization_loop_states
                ((λ record, record ≫= Tfrecords.parse_example) <$> records)
                (Tfrecords.mk_loop_state 0 []) Hlt Hinv)
      as (heads & final' & Heq & _ & Hall).
    rewrite Hrun in Heq. simpl in Heq. subst states.
    rewrite last_snoc in Hlast. injection Hlast as ->.
    apply Forall_app in Hall as [_ Hfin].
    destruct (proj1 (Forall_singleton _ _) Hfin) as (_ & Hcount & _). lia.
Qed.

End visualization_loop_break.

Lemma run_cells_stops_after_ten_figures_witness :
  ∃ states final,
    Tfrecords.run_cells (TF:=sample_tensorflow)
      (replicate 10 (Ok "contrail"%string)
       ++ [Raise (OSError "Connection reset by peer"); Ok "corrupt"%string])
    = (states, Ok ())
    ∧ last states = Some final
    ∧ length (Tfrecords.shown final) = 10%nat.
Proof.
  destruct (Tfrecords.run_cells (TF:=sample_tensorflow)
              (replicate 10 (Ok "contrail"%string))) as [states o] eqn:Hrun.
  assert (Ho : (Tfrecords.run_cells (TF:=sample_tensorflow)
                  (replicate 10 (Ok "contrail"%string))).2 = Ok ())
    by (vm_compute; reflexivity).
  assert (Hc : Tfrecords.count <$> last (Tfrecords.run_cells (TF:=sample_tensorflow)
                  (replicate 10 (Ok "contrail"%string))).1 = Some 10%nat)
    by (vm_compute; reflexivity).
  rewrite Hrun in Ho, Hc. simpl in Ho, Hc. subst o.
  destruct (last states) as [final|] eqn:Hlast; [| done].
  injection Hc as Hc.
  exists states, final.
  destruct (run_cells_stops_after_ten_figures (TF:=sample_tensorflow)
              (replicate 10 (Ok "contrail"%string))
              [Raise (OSError "Connection reset by peer"); Ok "corrupt"%string]
              states final Hrun Hlast Hc) as [Hrest Hshown].
  split_and!; [exact Hrest | exact Hlast | exact Hshown].
Defined.


(** ** The figures of the loop *)





Section shown_figures.
Context `{TF : Tfrecords.TensorFlow}.


End shown_figures.



(** ** The loading cell of the NetCDF notebook *)


Section loading.
Context `{FS : Netcdf.FileSystem}.

(** X12.  A variable missing from a band file makes line 95 raise
    AttributeError with the name of the first attribute that fails, in the
    order of evaluation: planck_fk2, planck_fk1, Rad, then (the quotient
    computed) planck_bc1, then planck_bc2; the loading loop ends with that
    error and writes no entry for the band. *)
Theorem brightness_temperature_missing_variable
    (dataset : gmap string (ndarray R)) :
  (dataset !! "planck_fk2" = None →
   Netcdf.brightness_temperature dataset = Raise (AttributeError "planck_fk2"))
  ∧ (is_Some (dataset !! "planck_fk2") → dataset !! "planck_fk1" = None →
     Netcdf.brightness_temperature dataset = Raise (AttributeError "planck_fk1"))
  ∧ (is_Some (dataset !! "planck_fk2") → is_Some (dataset !! "planck_fk1") →
     dataset !! "Rad" = None →
     Netcdf.brightness_temperature dataset = Raise (AttributeError "Rad"))
  ∧ (∀ fk2 fk1 rad,
       dataset !! "planck_fk2" = Some (scalar fk2) →
       dataset !! "planck_fk1" = Some (scalar fk1) →
       dataset !! "Rad" = Some rad → wf_array rad →
       dataset !! "planck_bc1" = None →
       Netcdf.brightness_temperature dataset = Raise (AttributeError "planck_bc1"))
  ∧ (∀ fk2 fk1 rad bc1,
       dataset !! "planck_fk2" = Some (scalar fk2) →
       dataset !! "planck_fk1" = Some (scalar fk1) →
       dataset !! "Rad" = Some rad → wf_array rad →
       dataset !! "planck_bc1" = Some (scalar bc1) →
       dataset !! "planck_bc2" = None →
       Netcdf.brightness_temperature dataset = Raise (AttributeError "planck_bc2"))
  ∧ (∀ e band_id path brightness_temperatures,
       Netcdf.open_dataset path = Ok dataset →
       Netcdf.brightness_temperature dataset = Raise e →
       Netcdf.load_bands [(band_id, path)] brightness_temperatures
       = (brightness_temperatures, Raise e)).
Proof.
  unfold Netcdf.brightness_temperature, Netcdf.getattr. split_and!.
  - by intros ->.
  - by intros [? ->] ->.
  - by intros [? ->] [? ->] ->.
  - intros fk2 fk1 rad -> -> -> Hwf ->. cbn [mbind result_bind].
    unfold Np.divide, Np.log, Np.elementwise.
    rewrite binary_scalar_l by done. cbn [mbind result_bind shape data].
    by rewrite binary_scalar_l by (rewrite <- !list_fmap_compose; by apply wf_fmap).
  - intros fk2 fk1 rad bc1 -> -> -> Hwf -> ->. cbn [mbind result_bind].
    unfold Np.divide, Np.subtract, Np.log, Np.elementwise.
    rewrite binary_scalar_l by done. cbn [mbind result_bind shape data].
    rewrite binary_scalar_l by (rewrite <- !list_fmap_compose; by apply wf_fmap).
    cbn [mbind result_bind shape data].
    by rewrite binary_scalar_r by (rewrite <- !list_fmap_compose; by apply wf_fmap).
  - intros e band_id path bts Hopen Hbt. cbn [Netcdf.load_bands]. rewrite Hopen.
    cbn [mbind result_bind].
    unfold Netcdf.brightness_temperature, Netcdf.getattr. by rewrite Hbt.
Qed.

(** X13.  When the loading loop finishes, the dictionary holds its
    previous keys and the band ids of the items; entries under other keys
    are untouched, and the entry of a band id is the brightness
    temperature computed from the last item with that id. *)
Theorem load_bands_loaded (items : list (Z * string))
    (brightness_temperatures loaded : gmap Z (ndarray R)) :
  Netcdf.load_bands items brightness_temperatures = (loaded, Ok ()) →
  dom loaded = dom brightness_temperatures ∪ list_to_set items.*1
  ∧ (∀ band_id, band_id ∉ items.*1 →
       loaded !! band_id = brightness_temperatures !! band_id)
  ∧ (∀ before band_id path after,
       items = before ++ (band_id, path) :: after →
       band_id ∉ after.*1 →
       ∃ dataset bt,
         Netcdf.open_dataset path = Ok dataset
         ∧ Netcdf.brightness_temperature dataset = Ok bt
         ∧ loaded !! band_id = Some bt).
Proof.
  revert brightness_temperatures.
  induction items as [|[band p] items IH]; intros bts; simpl.
  - intros [= <-]. split_and!.
    + cbn. by rewrite (right_id_L ∅ (∪)).
    + done.
    + intros [|? ?] ? ? ? H; discriminate H.
  - destruct (Netcdf.open_dataset p) as [dataset|e] eqn:Hopen; [| done].
    cbn [mbind result_bind].
    destruct (Netcdf.brightness_temperature dataset) as [bt|e] eqn:Hbt; [| done].
    intros Hload. destruct (IH _ Hload) as (Hdom & Hkeep & Hlast). split_and!.
    + rewrite Hdom, dom_insert_L. cbn.
      by rewrite (assoc_L (∪)), (comm_L (∪) (dom bts)).
    + intros band_id Hnot. rewrite not_elem_of_cons in Hnot. destruct Hnot as [Hne Hnot].
      rewrite (Hkeep band_id Hnot). by apply lookup_insert_ne.
    + intros before band_id path after Heq Hafter.
      destruct before as [|[b' p'] before]; simpl in Heq.
      * injection Heq as -> -> ->. exists dataset, bt. split_and!; [done | done |].
        rewrite (Hkeep band_id Hafter). apply lookup_insert_eq.
      * injection Heq as -> -> ->. by eapply Hlast.
Qed.

End loading.

Lemma brightness_temperature_missing_variable_witness :
  Netcdf.brightness_temperature (delete "Rad"%string sample_dataset)
  = Raise (AttributeError "Rad").
Proof.
  apply (brightness_temperature_missing_variable (FS:=sample_filesystem)
           (delete "Rad"%string sample_dataset)).
  - eexists. reflexivity.
  - eexists. reflexivity.
  - reflexivity.
Defined.

Lemma load_bands_loaded_witness :
  ∃ loaded,
    Netcdf.load_bands (FS:=sample_filesystem_complete) Netcdf.paths ∅ = (loaded, Ok ())
    ∧ dom loaded = dom (∅ : gmap Z (ndarray R)) ∪ list_to_set Netcdf.paths.*1.
Proof.
  destruct (Netcdf.load_bands (FS:=sample_filesystem_complete) Netcdf.paths ∅)
    as [loaded o] eqn:Hload.
  assert (Ho : (Netcdf.load_bands (FS:=sample_filesystem_complete) Netcdf.paths ∅).2
               = Ok ()) by (vm_compute; reflexivity).
  rewrite Hload in Ho. simpl in Ho. subst o.
  exists loaded. split; [reflexivity |].
  apply (load_bands_loaded (FS:=sample_filesystem_complete) Netcdf.paths ∅ loaded Hload).
Defined.

Section run_cells.
Context `{FS : Netcdf.FileSystem}.


End run_cells.

